(** * Phishing-training user simulation: the model of [user.py] and of the
      reporting queries of [main.py], with the properties of its specification.

    The embedding follows the Python sources function by function.  Python
    values are modelled as follows: [str] as [string], [int] as [Z], lists as
    [list], objects as records.  Exceptions and the global random generator
    are threaded through a state-and-exception monad.  Floating point is kept
    abstract behind the class [PyFloat]; the instance over exact rationals
    [Q] is the one used wherever a statement speaks of exact values. *)

From Stdlib Require Import ZArith QArith Bool List String Ascii Lia.
From Stdlib Require Import Permutation Sorted.
From Stdlib Require Import DecimalString DecimalZ.
Import ListNotations.

Local Open Scope string_scope.
Local Open Scope list_scope.
Local Open Scope Z_scope.

(** ** Python runtime: exceptions and the state monad *)

Module Py.

Inductive PyError : Type :=
| AssertionError (msg : string)
| IndexError
| ZeroDivisionError.

Inductive Result (A : Type) : Type :=
| Ok (a : A)
| Raise (e : PyError).
Arguments Ok {A} a.
Arguments Raise {A} e.

(** A computation over a mutable state [S]: the state that is returned is
    the state at the point where the computation ended, also when it ended
    with an exception (mutations made before a [raise] persist). *)
Definition M (S A : Type) : Type := S -> Result A * S.

Definition ret {S A} (a : A) : M S A := fun s => (Ok a, s).

Definition bind {S A B} (m : M S A) (k : A -> M S B) : M S B :=
  fun s =>
    match m s with
    | (Ok a, s') => k a s'
    | (Raise e, s') => (Raise e, s')
    end.

Definition raise {S A} (e : PyError) : M S A := fun s => (Raise e, s).

Definition modify {S} (f : S -> S) : M S unit := fun s => (Ok tt, f s).

(** [assert cond, msg] *)
Definition assert_ {S} (cond : bool) (msg : string) : M S unit :=
  if cond then ret tt else raise (AssertionError msg).

(** [seq[i]] for a non-negative constant index. *)
Definition getitem {S A} (seq : list A) (i : nat) : M S A :=
  match nth_error seq i with
  | Some x => ret x
  | None => raise IndexError
  end.

(** [str(z)] for an int: its decimal digits, with a sign when negative. *)
Definition str (z : Z) : string := NilEmpty.string_of_int (Z.to_int z).

Definition is_ok {A} (r : Result A) : bool :=
  match r with Ok _ => true | Raise _ => false end.

End Py.
Import Py.

Declare Scope py_scope.
Delimit Scope py_scope with py.
Notation "x <- m ;; k" := (bind m (fun x => k))
  (at level 100, m at next level, right associativity) : py_scope.
Notation "m ;; k" := (bind m (fun _ => k))
  (at level 100, right associativity) : py_scope.
Local Open Scope py_scope.

(** ** Floats

    The sources use floats in three ways only: the comparison [x < y], the
    true division of two ints, and the literals [0.1] and [0.5]. *)

Class PyFloat (F : Type) : Type := {
  flt : F -> F -> bool;
  int_truediv : Z -> Z -> F;
  float_0_1 : F;
  float_0_5 : F
}.

(** [a / b] on ints: raises on a zero divisor. *)
Definition truediv {S F} `{PyFloat F} (a b : Z) : M S F :=
  if b =? 0 then raise ZeroDivisionError else ret (int_truediv a b).

(** The exact instance: floats read as rationals, no rounding. *)
Definition Qltb (x y : Q) : bool := negb (Qle_bool y x).

#[export] Instance Q_PyFloat : PyFloat Q := {
  flt := Qltb;
  int_truediv := fun a b => (inject_Z a / inject_Z b)%Q;
  float_0_1 := (1 # 10)%Q;
  float_0_5 := (1 # 2)%Q
}.

(** ** The [random] module

    The generator's state is the script of the draws still to come: the
    uniform floats that [random.random()] will return and the raw integers
    from which [random.choice] derives its index, each with a cursor. *)

Module random.

Record State (F : Type) : Type := mkState {
  uniforms : nat -> F;
  integers : nat -> nat;
  upos : nat;
  ipos : nat
}.
Arguments mkState {F}.
Arguments uniforms {F}.
Arguments integers {F}.
Arguments upos {F}.
Arguments ipos {F}.

(** The generator after [k] further calls of [random.random()]. *)
Definition advance {F} (g : State F) (k : nat) : State F :=
  mkState (uniforms g) (integers g) (k + upos g) (ipos g).

(** A generator that will return the listed draws, then the defaults. *)
Definition scripted {F} (us : list F) (u : F) (ks : list nat) : State F :=
  mkState (fun i => nth i us u) (fun i => nth i ks 0%nat) 0 0.

(** [random.random()] *)
Definition random {F} : M (State F) F :=
  fun g => (Ok (uniforms g (upos g)),
            mkState (uniforms g) (integers g) (S (upos g)) (ipos g)).

(** [random.choice(seq)]: an index below [len(seq)], [IndexError] on an
    empty sequence. *)
Definition choice {F A} (seq : list A) : M (State F) A :=
  match seq with
  | [] => raise IndexError
  | _ :: _ =>
      fun g =>
        let k := Nat.modulo (integers g (ipos g)) (List.length seq) in
        getitem seq k
          (mkState (uniforms g) (integers g) (upos g) (S (ipos g)))
  end.

End random.

(** ** [datetime] and its [strftime] *)

Module datetime.

Record datetime : Type := mk {
  year : nat; month : nat; day : nat;
  hour : nat; minute : nat; second : nat
}.

Definition digit (n : nat) : ascii := ascii_of_nat (48 + Nat.modulo n 10).

Definition zpad2 (n : nat) : string :=
  String (digit (Nat.div n 10)) (String (digit n) EmptyString).

Definition zpad4 (n : nat) : string :=
  String (digit (Nat.div n 1000)) (String (digit (Nat.div n 100))
    (zpad2 n)).

(** [datetime.strftime(t, "%Y-%m-%d %H:%M:%S")], every field zero-padded to
    its width; the fields are those of a [datetime], so a year has at most
    four digits and the others at most two. *)
Definition strftime (t : datetime) : string :=
  (zpad4 (year t) ++ "-" ++ zpad2 (month t) ++ "-" ++ zpad2 (day t) ++ " "
   ++ zpad2 (hour t) ++ ":" ++ zpad2 (minute t) ++ ":" ++ zpad2 (second t)
  )%string.

End datetime.

(** ** [simulation.py] *)

Module simulation.

(** Modelled from the spec: [simulation.py], which declares
    [SIMULATION_OUTCOMES], is not among the sources; the specification gives
    the vocabulary as the ordered set SUCCESS, MISS, FAIL, and the comments
    of [user.py] name positions 0, 1 and 2 accordingly. *)
Definition SIMULATION_OUTCOMES : list string := ["SUCCESS"; "MISS"; "FAIL"].

(** Modelled from the spec: the record type [SimulationResult] of
    [simulation.py], with the five fields with which [user.py] builds it. *)
Record SimulationResult : Type := mkSimulationResult {
  timestamp : string;
  user_id : string;
  type : string;
  name : string;
  outcome : string
}.

End simulation.

(** ** [user.py] *)

Module user.

Record User : Type := mkUser {
  id : string;
  type : string;
  name : string;
  history : list simulation.SimulationResult
}.

(** [User.__init__(self, type)].  The two generated values, [uuid4().hex] and
    [names.get_first_name()], come from outside and are arguments here. *)
Definition User_init (uuid4_hex first_name : string) (type : string) : User :=
  mkUser uuid4_hex type first_name [].

(** [history.append(r)] on the user object. *)
Definition history_append (self : User) (r : simulation.SimulationResult)
  : User :=
  mkUser (id self) (type self) (name self) (history self ++ [r]).

(** [User.non_missed_simulations_completed]: the counting loop. *)
Definition non_missed_simulations_completed (self : User) : Z :=
  fold_left
    (fun count i =>
       if negb (simulation.outcome i =? "MISS")%string
       then count + 1 else count)
    (history self) 0.

(** [User.simulations_completed] *)
Definition simulations_completed (self : User) : Z :=
  Z.of_nat (List.length (history self)).

(** [User.__repr__] *)
Definition User_repr (self : User) : string :=
  ("User(id=" ++ id self ++ ", name=" ++ name self ++ ", type=" ++ type self
   ++ " simulations_completed=" ++ str (simulations_completed self) ++ ")"
  )%string.

Inductive UserClass : Type :=
| DummyUser | QuickLearner | SlowLearner | BusyQuickLearner | BusySlowLearner.

Section Methods.

Context {F : Type} `{PyFloat F}.

(** The name that [user.py] imports from [simulation]. *)
Variable SIMULATION_OUTCOMES : list string.

(** The program state seen by a method call: the object and the global
    random generator. *)
Definition World : Type := (User * random.State F)%type.

(** What a subclass supplies as [_get_simulation_outcome]: it reads the
    object, may draw random numbers, and returns a [str] or raises. *)
Definition Policy : Type := User -> M (random.State F) string.

Definition with_random {A} (m : M (random.State F) A) : M World A :=
  fun w => let (r, g) := m (snd w) in (r, (fst w, g)).

Definition get_self : M World User := fun w => (Ok (fst w), w).

Definition update_self (f : User -> User) : M World unit :=
  modify (fun w : World => (f (fst w), snd w)).

(** [outcome in SIMULATION_OUTCOMES] *)
Definition contains (seq : list string) (x : string) : bool :=
  existsb (fun e => (e =? x)%string) seq.

(** [User.complete_simulation(self, timestamp)] *)
Definition complete_simulation (_get_simulation_outcome : Policy)
    (timestamp : datetime.datetime) : M World unit :=
  self <- get_self ;;
  outcome <- with_random (_get_simulation_outcome self) ;;
  assert_ (contains SIMULATION_OUTCOMES outcome)
    "The outcome from your logic is not a valid simulation outcome." ;;
  update_self (fun self =>
    history_append self
      (simulation.mkSimulationResult
         (datetime.strftime timestamp) (id self) (type self) (name self)
         outcome)).

(** *** [DummyUser] *)

Definition DummyUser_init (uuid4_hex first_name : string) : User :=
  User_init uuid4_hex first_name "Dummy".

Definition DummyUser_get_simulation_outcome : Policy :=
  fun self => random.choice SIMULATION_OUTCOMES.

(** *** [QuickLearner] *)

Definition QuickLearner_init (uuid4_hex first_name : string) : User :=
  User_init uuid4_hex first_name "QuickLearner".

Definition QuickLearner_success_chance (self : User)
  : M (random.State F) F :=
  truediv (non_missed_simulations_completed self + 1)
          (non_missed_simulations_completed self + 10).

Definition QuickLearner_get_simulation_outcome : Policy :=
  fun self =>
    r1 <- random.random ;;
    if flt r1 float_0_1 then getitem SIMULATION_OUTCOMES 1
    else
      r2 <- random.random ;;
      chance <- QuickLearner_success_chance self ;;
      if flt r2 chance then getitem SIMULATION_OUTCOMES 0
      else getitem SIMULATION_OUTCOMES 2.

(** *** [SlowLearner] *)

Definition SlowLearner_init (uuid4_hex first_name : string) : User :=
  User_init uuid4_hex first_name "SlowLearner".

Definition SlowLearner_success_chance (self : User)
  : M (random.State F) F :=
  truediv (non_missed_simulations_completed self + 3)
          (non_missed_simulations_completed self + 30).

Definition SlowLearner_get_simulation_outcome : Policy :=
  fun self =>
    r1 <- random.random ;;
    if flt r1 float_0_1 then getitem SIMULATION_OUTCOMES 1
    else
      r2 <- random.random ;;
      chance <- SlowLearner_success_chance self ;;
      if flt r2 chance then getitem SIMULATION_OUTCOMES 0
      else getitem SIMULATION_OUTCOMES 2.

(** *** [BusyQuickLearner] *)

Definition BusyQuickLearner_init (uuid4_hex first_name : string) : User :=
  User_init uuid4_hex first_name "BusyQuickLearner".

Definition BusyQuickLearner_success_chance (self : User)
  : M (random.State F) F :=
  truediv (non_missed_simulations_completed self + 1)
          (non_missed_simulations_completed self + 10).

Definition BusyQuickLearner_get_simulation_outcome : Policy :=
  fun self =>
    r1 <- random.random ;;
    if flt r1 float_0_5 then getitem SIMULATION_OUTCOMES 1
    else
      r2 <- random.random ;;
      chance <- BusyQuickLearner_success_chance self ;;
      if flt r2 chance then getitem SIMULATION_OUTCOMES 0
      else getitem SIMULATION_OUTCOMES 2.

(** *** [BusySlowLearner] *)

Definition BusySlowLearner_init (uuid4_hex first_name : string) : User :=
  User_init uuid4_hex first_name "BusySlowLearner".

Definition BusySlowLearner_success_chance (self : User)
  : M (random.State F) F :=
  truediv (non_missed_simulations_completed self + 3)
          (non_missed_simulations_completed self + 30).

Definition BusySlowLearner_get_simulation_outcome : Policy :=
  fun self =>
    r1 <- random.random ;;
    if flt r1 float_0_5 then getitem SIMULATION_OUTCOMES 1
    else
      r2 <- random.random ;;
      chance <- BusySlowLearner_success_chance self ;;
      if flt r2 chance then getitem SIMULATION_OUTCOMES 0
      else getitem SIMULATION_OUTCOMES 2.

(** Method resolution by class. *)
Definition _get_simulation_outcome (cls : UserClass) : Policy :=
  match cls with
  | DummyUser => DummyUser_get_simulation_outcome
  | QuickLearner => QuickLearner_get_simulation_outcome
  | SlowLearner => SlowLearner_get_simulation_outcome
  | BusyQuickLearner => BusyQuickLearner_get_simulation_outcome
  | BusySlowLearner => BusySlowLearner_get_simulation_outcome
  end.

(** A caller that completes one simulation per timestamp, in order, and
    stops at the first exception. *)
Fixpoint complete_simulations (policy : Policy)
    (timestamps : list datetime.datetime) : M World unit :=
  match timestamps with
  | [] => ret tt
  | t :: rest =>
      complete_simulation policy t ;; complete_simulations policy rest
  end.

(** The states an object can be in: as constructed, or after a further
    call of [complete_simulation], whatever the call's result and whatever
    the generator's state. *)
Inductive reachable (policy : Policy) (init : User) : User -> Prop :=
| reach_init : reachable policy init init
| reach_call (self self' : User) (g g' : random.State F)
    (t : datetime.datetime) (res : Result unit) :
    reachable policy init self ->
    complete_simulation policy t (self, g) = (res, (self', g')) ->
    reachable policy init self'.

(** A user that was constructed and then only used through
    [complete_simulation]. *)
Definition grown (policy : Policy) (u : User) : Prop :=
  exists uuid4_hex first_name ty,
    reachable policy (User_init uuid4_hex first_name ty) u.

End Methods.

Arguments Policy F : clear implicits.
Arguments World F : clear implicits.

End user.

(** ** The behaviour the specification describes

    These definitions follow the words of the specification; the theorems
    below compare them with the embedding of the code. *)

Module spec.

Inductive Outcome : Type := SUCCESS | MISS | FAIL.

Definition outcome_name (o : Outcome) : string :=
  match o with
  | SUCCESS => "SUCCESS"
  | MISS => "MISS"
  | FAIL => "FAIL"
  end.

(** The position at which the vocabulary declares each outcome. *)
Definition position (o : Outcome) : nat :=
  match o with
  | SUCCESS => 0%nat
  | MISS => 1%nat
  | FAIL => 2%nat
  end.

(** The four learner variants of the table of variant policies. *)
Inductive Learner : Type := Quick | Slow | BusyQuick | BusySlow.

Definition class_of (v : Learner) : user.UserClass :=
  match v with
  | Quick => user.QuickLearner
  | Slow => user.SlowLearner
  | BusyQuick => user.BusyQuickLearner
  | BusySlow => user.BusySlowLearner
  end.

Definition counterpart (v : Learner) : Learner :=
  match v with
  | Quick | BusyQuick => Quick
  | Slow | BusySlow => Slow
  end.

Definition is_busy (v : Learner) : bool :=
  match v with
  | Quick | Slow => false
  | BusyQuick | BusySlow => true
  end.

(** The constants of a variant's curve [(n + a) / (n + b)]. *)
Definition offsets (v : Learner) : Z * Z :=
  match v with
  | Quick | BusyQuick => (1, 10)
  | Slow | BusySlow => (3, 30)
  end.

Section Table.

Context {F : Type} `{PyFloat F}.

Definition miss_probability (v : Learner) : F :=
  match v with
  | Quick | Slow => float_0_1
  | BusyQuick | BusySlow => float_0_5
  end.

Definition success_chance (v : Learner) (n : Z) : F :=
  match v with
  | Quick | BusyQuick => int_truediv (n + 1) (n + 10)
  | Slow | BusySlow => int_truediv (n + 3) (n + 30)
  end.

(** The two-stage draw. *)
Definition ProduceOutcome (v : Learner) (n : Z) (draw1 draw2 : F) : Outcome :=
  if flt draw1 (miss_probability v) then MISS
  else if flt draw2 (success_chance v n) then SUCCESS
  else FAIL.

(** Uniform draws consumed by the two-stage draw. *)
Definition draws_used (v : Learner) (draw1 : F) : nat :=
  if flt draw1 (miss_probability v) then 1%nat else 2%nat.

(** The closure [success_chance] that the code of a learner class defines. *)
Definition closure_of (v : Learner) : user.User -> M (random.State F) F :=
  match v with
  | Quick => user.QuickLearner_success_chance
  | Slow => user.SlowLearner_success_chance
  | BusyQuick => user.BusyQuickLearner_success_chance
  | BusySlow => user.BusySlowLearner_success_chance
  end.

End Table.

(** A result carries the identity of a user. *)
Definition bound_to (u : user.User) (r : simulation.SimulationResult) : Prop :=
  simulation.user_id r = user.id u
  /\ simulation.type r = user.type u
  /\ simulation.name r = user.name u.

(** The rows of one user in the table that flattens every user's history,
    selected by [user_id]. *)
Definition rows_of (u : user.User) (population : list user.User)
  : list simulation.SimulationResult :=
  filter (fun r => (simulation.user_id r =? user.id u)%string)
    (flat_map user.history population).

Definition NonMissedCompletedCount
    (history : list simulation.SimulationResult) : Z :=
  Z.of_nat (List.length
    (filter (fun r => negb (simulation.outcome r =? "MISS")%string) history)).

Definition SimulationsCompletedCount
    (history : list simulation.SimulationResult) : Z :=
  Z.of_nat (List.length history).

End spec.

(** ** The results table and the aggregation queries *)

Module sql.

(** A row of the results table: one [SimulationResult], with its five
    fields as columns. *)
Definition Row : Type := simulation.SimulationResult.

(** SQLite's [strftime('%Y-%m', timestamp)] on a timestamp text of the form
    written by [complete_simulation]: its first seven characters. *)
Definition strftime_Ym (timestamp : string) : string :=
  substring 0 7 timestamp.

(** [COUNT(CASE WHEN c THEN 1 END)] over the rows of a group. *)
Definition COUNT_CASE_WHEN (c : Row -> bool) (group : list Row) : Z :=
  Z.of_nat (List.length (filter c group)).

Section Query.

Variables K O : Type.

(** Modelled from the spec: [QueryParams] of [sql.py], which is not among
    the sources: the parameters of the query template [SELECT dimensions FROM
    table GROUP BY group_by ORDER BY order_by], each given by its meaning.
    [dimensions] receives the row from which a group's bare columns are read
    and the rows of the group. *)
Record QueryParams : Type := mkQueryParams {
  dimensions : Row -> list Row -> O;
  group_by : Row -> K;
  group_eqb : K -> K -> bool;
  order_by : O -> string
}.

Variable q : QueryParams.

(** The first row of every group, in table order. *)
Fixpoint first_rows (seen : list K) (table : list Row) : list Row :=
  match table with
  | [] => []
  | r :: rest =>
      if existsb (group_eqb q (group_by q r)) seen
      then first_rows seen rest
      else r :: first_rows (group_by q r :: seen) rest
  end.

Definition group_of (r : Row) (table : list Row) : list Row :=
  filter (fun r' => group_eqb q (group_by q r) (group_by q r')) table.

(** [GROUP BY]: one output row per group. *)
Definition GROUP_BY (table : list Row) : list O :=
  map (fun r => dimensions q r (group_of r table)) (first_rows [] table).

(** [ORDER BY ... ASC], by insertion; rows with equal keys keep their
    order. *)
Fixpoint insert_row (o : O) (sorted : list O) : list O :=
  match sorted with
  | [] => [o]
  | o' :: rest =>
      if (order_by q o <=? order_by q o')%string then o :: sorted
      else o' :: insert_row o rest
  end.

Fixpoint ORDER_BY (rows : list O) : list O :=
  match rows with
  | [] => []
  | o :: rest => insert_row o (ORDER_BY rest)
  end.

(** Two output rows in ascending order of the [ORDER BY] column. *)
Definition ordered (a b : O) : Prop :=
  (order_by q a <=? order_by q b)%string = true.

(** Modelled from the spec: [query_db_to_df] of [sql.py]: the result of the
    templated aggregation query over the table. *)
Definition query_db_to_df (table : list Row) : list O :=
  ORDER_BY (GROUP_BY table).

End Query.

Arguments mkQueryParams {K O}.
Arguments dimensions {K O}.
Arguments group_by {K O}.
Arguments group_eqb {K O}.
Arguments order_by {K O}.
Arguments first_rows {K O}.
Arguments group_of {K O}.
Arguments GROUP_BY {K O}.
Arguments insert_row {K O}.
Arguments ORDER_BY {K O}.
Arguments query_db_to_df {K O}.
Arguments ordered {K O}.

End sql.

(** ** [main.py] *)

Module main.

Import sql.

(** The columns [date, type, successes, fails]. *)
Record TypesRow : Type := mkTypesRow {
  date : string;
  type : string;
  successes : Z;
  fails : Z
}.

(** The columns [user_id, name, type, successes, fails, misses]. *)
Record IndividualsRow : Type := mkIndividualsRow {
  i_user_id : string;
  i_name : string;
  i_type : string;
  i_successes : Z;
  i_fails : Z;
  i_misses : Z
}.

Definition outcome_is (o : string) (r : Row) : bool :=
  (simulation.outcome r =? o)%string.

(** [get_data_with_query__types]: the query
    [SELECT strftime('%Y-%m', timestamp) AS date, type,
            COUNT(CASE WHEN outcome = 'SUCCESS' THEN 1 END) AS successes,
            COUNT(CASE WHEN outcome = 'FAIL' THEN 1 END) AS fails
     GROUP BY date, type ORDER BY date ASC]. *)
Definition query_params__types : QueryParams (string * string) TypesRow :=
  mkQueryParams
    (fun r group =>
       mkTypesRow
         (strftime_Ym (simulation.timestamp r))
         (simulation.type r)
         (COUNT_CASE_WHEN (outcome_is "SUCCESS") group)
         (COUNT_CASE_WHEN (outcome_is "FAIL") group))
    (fun r => (strftime_Ym (simulation.timestamp r), simulation.type r))
    (fun k k' => (fst k =? fst k')%string && (snd k =? snd k')%string)
    date.

Definition get_data_with_query__types (table : list Row) : list TypesRow :=
  query_db_to_df query_params__types table.

(** [get_data_with_query__individuals]: the query
    [SELECT user_id, name, type,
            COUNT(CASE WHEN outcome = 'SUCCESS' THEN 1 END) AS successes,
            COUNT(CASE WHEN outcome = 'FAIL' THEN 1 END) AS fails,
            COUNT(CASE WHEN outcome = 'MISS' THEN 1 END) AS misses
     GROUP BY user_id ORDER BY name ASC]. *)
Definition query_params__individuals : QueryParams string IndividualsRow :=
  mkQueryParams
    (fun r group =>
       mkIndividualsRow
         (simulation.user_id r)
         (simulation.name r)
         (simulation.type r)
         (COUNT_CASE_WHEN (outcome_is "SUCCESS") group)
         (COUNT_CASE_WHEN (outcome_is "FAIL") group)
         (COUNT_CASE_WHEN (outcome_is "MISS") group))
    simulation.user_id
    String.eqb
    i_name.

Definition get_data_with_query__individuals (table : list Row)
  : list IndividualsRow :=
  query_db_to_df query_params__individuals table.

End main.

(** ** The aggregation shapes the specification requires *)

Module aggregation.

(** Number of rows of the table that satisfy a condition. *)
Definition count_rows (c : sql.Row -> bool) (table : list sql.Row) : Z :=
  Z.of_nat (List.length (filter c table)).

(** The row belongs to the given month and user type. *)
Definition month_type_is (date type : string) (r : sql.Row) : bool :=
  (date =? sql.strftime_Ym (simulation.timestamp r))%string
  && (type =? simulation.type r)%string.

(** The row belongs to the given user. *)
Definition user_is (user_id : string) (r : sql.Row) : bool :=
  (user_id =? simulation.user_id r)%string.

(** The three results of the specification's scenario. *)
Definition scenario : list sql.Row :=
  [simulation.mkSimulationResult
     "2022-03-01 00:00:00" "u1" "QuickLearner" "Ann" "SUCCESS";
   simulation.mkSimulationResult
     "2022-03-02 00:00:00" "u1" "QuickLearner" "Ann" "SUCCESS";
   simulation.mkSimulationResult
     "2022-03-03 00:00:00" "u1" "QuickLearner" "Ann" "FAIL"].

(** The sum of a column over the rows of a result. *)
Definition total {O : Type} (column : O -> Z) (rows : list O) : Z :=
  fold_right (fun o acc => column o + acc) 0 rows.

(** The row's outcome is not MISS. *)
Definition non_missed (r : sql.Row) : bool :=
  negb (simulation.outcome r =? "MISS")%string.

(** The rows of one user agree on the user's name and type. *)
Definition consistent (table : list sql.Row) : Prop :=
  forall r r', In r table -> In r' table ->
    simulation.user_id r = simulation.user_id r' ->
    simulation.name r = simulation.name r'
    /\ simulation.type r = simulation.type r'.


End aggregation.

(** * Properties *)

Import simulation.

(** ** The model at work *)

Example QuickLearner_first_event :
  user._get_simulation_outcome SIMULATION_OUTCOMES user.QuickLearner
    (user.QuickLearner_init "u1" "Ann")
    (random.scripted [1 # 2; 1 # 20]%Q 0%Q [])
  = (Ok "SUCCESS",
     random.advance (random.scripted [1 # 2; 1 # 20]%Q 0%Q []) 2).
Proof. reflexivity. Qed.

Example BusySlowLearner_misses :
  fst (user._get_simulation_outcome SIMULATION_OUTCOMES user.BusySlowLearner
         (user.BusySlowLearner_init "u3" "Cy")
         (random.scripted [2 # 5]%Q 0%Q []))
  = Ok "MISS".
Proof. reflexivity. Qed.

Example DummyUser_chooses :
  fst (user._get_simulation_outcome (F:=Q) SIMULATION_OUTCOMES user.DummyUser
         (user.DummyUser_init "u4" "Di")
         (random.scripted [] 0%Q [5%nat]))
  = Ok "FAIL".
Proof. reflexivity. Qed.

Example empty_vocabulary_raises :
  fst (user._get_simulation_outcome (F:=Q) [] user.DummyUser
         (user.DummyUser_init "u4" "Di") (random.scripted [] 0%Q []))
  = Raise IndexError.
Proof. reflexivity. Qed.

Example strftime_pads :
  datetime.strftime (datetime.mk 2022 3 7 9 5 0) = "2022-03-07 09:05:00".
Proof. reflexivity. Qed.

(** ** Counting *)

Lemma count_loop_filter (l : list SimulationResult) (acc : Z) :
  fold_left
    (fun count i =>
       if negb (outcome i =? "MISS")%string then count + 1 else count) l acc
  = acc + spec.NonMissedCompletedCount l.
Proof.
  unfold spec.NonMissedCompletedCount.
  revert acc; induction l as [|r l IH]; intros acc; simpl.
  - lia.
  - rewrite IH. destruct (outcome r =? "MISS")%string; simpl; lia.
Qed.

Lemma non_missed_is_count (self : user.User) :
  user.non_missed_simulations_completed self
  = spec.NonMissedCompletedCount (user.history self).
Proof.
  unfold user.non_missed_simulations_completed.
  now rewrite count_loop_filter.
Qed.

Lemma non_missed_nonneg (self : user.User) :
  0 <= user.non_missed_simulations_completed self.
Proof.
  rewrite non_missed_is_count. unfold spec.NonMissedCompletedCount. lia.
Qed.

(** ** The success-chance closures *)

Section Closures.

Context {F : Type} `{PyFloat F}.

Lemma truediv_pos {S} (a b : Z) (s : S) :
  0 < b -> truediv a b s = (Ok (int_truediv a b), s).
Proof.
  intros Hb. unfold truediv.
  destruct (Z.eqb_spec b 0); [lia | reflexivity].
Qed.

Lemma closure_value (v : spec.Learner) (self : user.User)
    (g : random.State F) :
  spec.closure_of v self g
  = (Ok (spec.success_chance v (user.non_missed_simulations_completed self)),
     g).
Proof.
  pose proof (non_missed_nonneg self) as Hn.
  destruct v; simpl;
    unfold user.QuickLearner_success_chance, user.SlowLearner_success_chance,
      user.BusyQuickLearner_success_chance, user.BusySlowLearner_success_chance;
    apply truediv_pos; lia.
Qed.

End Closures.

(** ** The learner policies *)

Section Learners.

Context {F : Type} `{PyFloat F}.

(** Whatever the vocabulary, a learner returns the element found at the
    declared position of the outcome that the two-stage draw selects. *)
Lemma learner_policy_indexed (V : list string) (v : spec.Learner)
    (self : user.User) (g : random.State F) :
  user._get_simulation_outcome V (spec.class_of v) self g
  = getitem V
      (spec.position
         (spec.ProduceOutcome v (user.non_missed_simulations_completed self)
            (random.uniforms g (random.upos g))
            (random.uniforms g (S (random.upos g)))))
      (random.advance g
         (spec.draws_used v (random.uniforms g (random.upos g)))).
Proof.
  unfold spec.ProduceOutcome, spec.draws_used.
  pose proof (closure_value v self) as Hc.
  set (draw1 := random.uniforms g (random.upos g)).
  set (draw2 := random.uniforms g (S (random.upos g))).
  destruct v; simpl in *;
    unfold user.QuickLearner_get_simulation_outcome,
      user.SlowLearner_get_simulation_outcome,
      user.BusyQuickLearner_get_simulation_outcome,
      user.BusySlowLearner_get_simulation_outcome;
    unfold bind at 1; unfold random.random at 1; fold draw1;
    (destruct (flt draw1 _); [reflexivity|]);
    unfold bind at 1; unfold random.random at 1; simpl; fold draw2;
    unfold bind; rewrite Hc;
    destruct (flt draw2 _); reflexivity.
Qed.

Lemma getitem_declared {S} (o : spec.Outcome) (s : S) :
  getitem SIMULATION_OUTCOMES (spec.position o) s
  = (Ok (spec.outcome_name o), s).
Proof. destruct o; reflexivity. Qed.

Lemma learner_policy_value (v : spec.Learner) (self : user.User)
    (g : random.State F) :
  user._get_simulation_outcome SIMULATION_OUTCOMES (spec.class_of v) self g
  = (Ok (spec.outcome_name
           (spec.ProduceOutcome v (user.non_missed_simulations_completed self)
              (random.uniforms g (random.upos g))
              (random.uniforms g (S (random.upos g))))),
     random.advance g
       (spec.draws_used v (random.uniforms g (random.upos g)))).
Proof. rewrite learner_policy_indexed. apply getitem_declared. Qed.

Lemma outcome_name_declared (o : spec.Outcome) :
  In (spec.outcome_name o) SIMULATION_OUTCOMES.
Proof. destruct o; simpl; auto. Qed.

Lemma declared_outcome_name (x : string) :
  In x SIMULATION_OUTCOMES -> exists o, x = spec.outcome_name o.
Proof.
  simpl. intros [<-|[<-|[<-|[]]]];
    [exists spec.SUCCESS | exists spec.MISS | exists spec.FAIL]; reflexivity.
Qed.

(** C1. Each learner class's [_get_simulation_outcome] is the two-stage draw
    of the specification: MISS when the first uniform draw is below the
    class's miss probability, otherwise SUCCESS when the second draw is below
    the class's success chance at the current non-missed count, otherwise
    FAIL; it never raises, and [complete_simulation] records that outcome, the
    count being the one of the history before the new entry. *)
Theorem C1_two_stage_draw (v : spec.Learner) (self : user.User)
    (g : random.State F) (t : datetime.datetime) :
  let n := user.non_missed_simulations_completed self in
  let draw1 := random.uniforms g (random.upos g) in
  let draw2 := random.uniforms g (S (random.upos g)) in
  let o := spec.outcome_name (spec.ProduceOutcome v n draw1 draw2) in
  let g' := random.advance g (spec.draws_used v draw1) in
  user._get_simulation_outcome SIMULATION_OUTCOMES (spec.class_of v) self g
  = (Ok o, g')
  /\ user.complete_simulation SIMULATION_OUTCOMES
       (user._get_simulation_outcome SIMULATION_OUTCOMES (spec.class_of v))
       t (self, g)
     = (Ok tt,
        (user.history_append self
           (mkSimulationResult (datetime.strftime t) (user.id self)
              (user.type self) (user.name self) o),
         g')).
Proof.
  intros n draw1 draw2 o g'.
  pose proof (learner_policy_value v self g) as Hpol.
  fold n draw1 draw2 o g' in Hpol.
  split; [exact Hpol|].
  unfold user.complete_simulation, bind, user.get_self, user.with_random.
  simpl fst; simpl snd. rewrite Hpol.
  subst o. destruct (spec.ProduceOutcome v n draw1 draw2); reflexivity.
Qed.

End Learners.

(** ** The success-chance curves over exact rationals *)

Lemma Qdiv_inject_pos (a b : Z) :
  0 < b -> (inject_Z a / inject_Z b == a # Z.to_pos b)%Q.
Proof.
  intros Hb. destruct b as [|b|b]; try lia.
  unfold Qdiv, Qinv, inject_Z, Qmult, Qeq; simpl. lia.
Qed.

Lemma curve_counterpart (v : spec.Learner) (n : Z) :
  spec.success_chance (F:=Q) v n
  = spec.success_chance (F:=Q) (spec.counterpart v) n.
Proof. destruct v; reflexivity. Qed.

Lemma curve_form (v : spec.Learner) (n : Z) :
  0 <= n ->
  (spec.success_chance (F:=Q) v n
   == (n + fst (spec.offsets v)) # Z.to_pos (n + snd (spec.offsets v)))%Q.
Proof.
  intros Hn. rewrite curve_counterpart.
  destruct v; simpl; apply Qdiv_inject_pos; lia.
Qed.

Lemma offsets_cases (v : spec.Learner) :
  spec.offsets v = (1, 10) \/ spec.offsets v = (3, 30).
Proof. destruct v; simpl; auto. Qed.

Lemma curve_initial (v : spec.Learner) :
  (spec.success_chance (F:=Q) v 0 == 1 # 10)%Q.
Proof. destruct v; reflexivity. Qed.

Lemma curve_increasing (v : spec.Learner) (n m : Z) :
  0 <= n -> n < m ->
  (spec.success_chance (F:=Q) v n < spec.success_chance (F:=Q) v m)%Q.
Proof.
  intros Hn Hm.
  rewrite (curve_form v n), (curve_form v m) by lia.
  unfold Qlt; simpl.
  destruct (offsets_cases v) as [-> | ->]; simpl;
    rewrite !Z2Pos.id by lia; nia.
Qed.

Lemma curve_below_one (v : spec.Learner) (n : Z) :
  0 <= n -> (spec.success_chance (F:=Q) v n < 1)%Q.
Proof.
  intros Hn. rewrite (curve_form v n) by lia.
  unfold Qlt; simpl.
  destruct (offsets_cases v) as [-> | ->]; simpl;
    rewrite !Z2Pos.id by lia; lia.
Qed.

Lemma curve_limit (v : spec.Learner) (eps : Q) :
  (0 < eps)%Q ->
  exists N : Z, 0 <= N /\
    forall n : Z, N <= n -> (1 - eps < spec.success_chance (F:=Q) v n)%Q.
Proof.
  intros Heps. destruct eps as [p q].
  assert (Hp : 0 < p) by (unfold Qlt in Heps; simpl in Heps; lia).
  exists (27 * Z.pos q). split; [lia|].
  intros n Hn. rewrite (curve_form v n) by lia.
  unfold Qlt, Qminus, Qplus, Qopp; cbn [Qnum Qden].
  rewrite Pos2Z.inj_mul.
  destruct (offsets_cases v) as [-> | ->]; cbn [fst snd];
    rewrite !Z2Pos.id by lia; nia.
Qed.

(** C2. Over exact rationals, the closure [success_chance] of every learner
    class returns the class's curve at the current non-missed count; both
    curves start at exactly 1/10, increase strictly, stay below 1, and come
    within any positive distance of 1 from some count on. *)
Theorem C2_success_chance_curves (v : spec.Learner) :
  (forall (self : user.User) (g : random.State Q),
      spec.closure_of v self g
      = (Ok (spec.success_chance v
               (user.non_missed_simulations_completed self)), g))
  /\ (spec.success_chance (F:=Q) v 0 == 1 # 10)%Q
  /\ (forall n m : Z, 0 <= n -> n < m ->
        (spec.success_chance (F:=Q) v n < spec.success_chance (F:=Q) v m)%Q)
  /\ (forall n : Z, 0 <= n -> (spec.success_chance (F:=Q) v n < 1)%Q)
  /\ (forall eps : Q, (0 < eps)%Q ->
        exists N : Z, 0 <= N /\
          forall n : Z, N <= n ->
            (1 - eps < spec.success_chance (F:=Q) v n)%Q
            /\ (spec.success_chance (F:=Q) v n < 1)%Q).
Proof.
  split; [intros; apply closure_value|].
  split; [apply curve_initial|].
  split; [intros; now apply curve_increasing|].
  split; [intros; now apply curve_below_one|].
  intros eps Heps. destruct (curve_limit v eps Heps) as (N & HN & Hlim).
  exists N. split; [exact HN|].
  intros n Hn. split; [now apply Hlim | apply curve_below_one; lia].
Qed.

Lemma C2_success_chance_curves_witness :
  (spec.success_chance (F:=Q) spec.Slow 4
   < spec.success_chance (F:=Q) spec.Slow 5)%Q
  /\ (spec.success_chance (F:=Q) spec.Quick 90 < 1)%Q.
Proof.
  split.
  - apply (proj1 (proj2 (proj2 (C2_success_chance_curves spec.Slow)))); lia.
  - apply (proj1 (proj2 (proj2 (proj2
              (C2_success_chance_curves spec.Quick))))); lia.
Defined.

(** ** [complete_simulation] *)

Section CompleteSimulation.

Context {F : Type} `{PyFloat F}.
Variable V : list string.

Lemma contains_In (x : string) : user.contains V x = true <-> In x V.
Proof.
  unfold user.contains. rewrite existsb_exists. split.
  - intros (e & He & Heq). apply String.eqb_eq in Heq. now subst.
  - intros Hin. exists x. split; [exact Hin | apply String.eqb_refl].
Qed.

Lemma contains_not_In (x : string) : user.contains V x = false <-> ~ In x V.
Proof.
  rewrite <- contains_In. destruct (user.contains V x); split; intros;
    congruence.
Qed.

(** The three ways a call can end, by what the policy did. *)
Lemma complete_simulation_cases (policy : user.Policy F)
    (t : datetime.datetime) (self : user.User) (g : random.State F) :
  user.complete_simulation V policy t (self, g)
  = match policy self g with
    | (Raise e, g') => (Raise e, (self, g'))
    | (Ok o, g') =>
        if user.contains V o
        then (Ok tt,
              (user.history_append self
                 (mkSimulationResult (datetime.strftime t) (user.id self)
                    (user.type self) (user.name self) o), g'))
        else (Raise (AssertionError
                "The outcome from your logic is not a valid simulation outcome."),
              (self, g'))
    end.
Proof.
  unfold user.complete_simulation, bind, user.get_self, user.with_random.
  simpl fst; simpl snd.
  destruct (policy self g) as [[o|e] g']; [|reflexivity].
  destruct (user.contains V o); reflexivity.
Qed.

(** A call changes the object only by appending at most one entry. *)
Lemma complete_simulation_step (policy : user.Policy F)
    (t : datetime.datetime) (w w' : user.World F) (res : Result unit) :
  user.complete_simulation V policy t w = (res, w') ->
  user.id (fst w') = user.id (fst w)
  /\ user.type (fst w') = user.type (fst w)
  /\ user.name (fst w') = user.name (fst w)
  /\ ((res = Ok tt /\
       exists o : string, In o V /\
         user.history (fst w')
         = user.history (fst w)
           ++ [mkSimulationResult (datetime.strftime t) (user.id (fst w))
                 (user.type (fst w)) (user.name (fst w)) o])
      \/ ((exists e, res = Raise e) /\ fst w' = fst w)).
Proof.
  destruct w as [self g]. rewrite complete_simulation_cases.
  destruct (policy self g) as [[o|e] g'].
  - destruct (user.contains V o) eqn:Hc; intros [= <- <-]; simpl.
    + repeat split; try reflexivity. left. split; [reflexivity|].
      exists o. split; [now apply contains_In | reflexivity].
    + repeat split; try reflexivity. right. split; [eauto | reflexivity].
  - intros [= <- <-]; simpl. repeat split; try reflexivity.
    right. split; [eauto | reflexivity].
Qed.

End CompleteSimulation.

Section Validation.

Context {F : Type} `{PyFloat F}.

(** C3, amended. [complete_simulation] raises exactly when the policy raises,
    in which case that exception is passed on, or returns a value outside the
    vocabulary, in which case the assertion fails; on either failure the user
    is left as it was; when the policy returns a value of the vocabulary the
    call returns normally, the history is the old history followed by the one
    result built from the timestamp, the user's id, type and name and that
    outcome, and id, type and name are unchanged. *)
Theorem C3_complete_simulation_failures (policy : user.Policy F)
    (t : datetime.datetime) (self : user.User) (g : random.State F) :
  let r := user.complete_simulation SIMULATION_OUTCOMES policy t (self, g) in
  (is_ok (fst r) = false
   <-> (exists e g', policy self g = (Raise e, g'))
       \/ (exists o g', policy self g = (Ok o, g')
                        /\ ~ In o SIMULATION_OUTCOMES))
  /\ (is_ok (fst r) = false -> fst (snd r) = self)
  /\ (forall e g', policy self g = (Raise e, g') ->
        r = (Raise e, (self, g')))
  /\ (forall o g', policy self g = (Ok o, g') ->
        ~ In o SIMULATION_OUTCOMES ->
        r = (Raise (AssertionError
               "The outcome from your logic is not a valid simulation outcome."),
             (self, g')))
  /\ (forall o g', policy self g = (Ok o, g') ->
        In o SIMULATION_OUTCOMES ->
        fst r = Ok tt
        /\ snd (snd r) = g'
        /\ user.history (fst (snd r))
           = user.history self
             ++ [mkSimulationResult (datetime.strftime t) (user.id self)
                   (user.type self) (user.name self) o]
        /\ user.id (fst (snd r)) = user.id self
        /\ user.type (fst (snd r)) = user.type self
        /\ user.name (fst (snd r)) = user.name self).
Proof.
  intros r. subst r. rewrite complete_simulation_cases.
  destruct (policy self g) as [[o|e] g1] eqn:Hp.
  - destruct (user.contains SIMULATION_OUTCOMES o) eqn:Hc.
    + apply contains_In in Hc. cbn [fst snd is_ok].
      split; [|split; [|split; [|split]]].
      * split; [discriminate|].
        intros [(e & g' & E) | (o' & g' & E & Hnot)]; [discriminate|].
        injection E as <- <-. contradiction.
      * discriminate.
      * intros e g' E. discriminate E.
      * intros o' g' E Hnot. injection E as <- <-. contradiction.
      * intros o' g' E _. injection E as <- <-.
        repeat split; reflexivity.
    + apply contains_not_In in Hc. cbn [fst snd is_ok].
      split; [|split; [|split; [|split]]].
      * split; [|reflexivity]. intros _. right. eauto.
      * reflexivity.
      * intros e g' E. discriminate E.
      * intros o' g' E _. injection E as <- <-. reflexivity.
      * intros o' g' E Hin. injection E as <- <-. contradiction.
  - cbn [fst snd is_ok].
    split; [|split; [|split; [|split]]].
    + split; [|reflexivity]. intros _. left. eauto.
    + reflexivity.
    + intros e' g' E. injection E as <- <-. reflexivity.
    + intros o g' E. discriminate E.
    + intros o g' E. discriminate E.
Qed.

(** An exception of the policy itself passes through, the user untouched. *)
Lemma complete_simulation_propagates (V : list string)
    (policy : user.Policy F) (t : datetime.datetime) (self : user.User)
    (g g' : random.State F) (e : PyError) :
  policy self g = (Raise e, g') ->
  user.complete_simulation V policy t (self, g) = (Raise e, (self, g')).
Proof. intros Hp. now rewrite complete_simulation_cases, Hp. Qed.

Lemma complete_simulations_run (V : list string) (policy : user.Policy F)
    (ts : list datetime.datetime) :
  forall (w w' : user.World F) (res : Result unit),
    user.complete_simulations V policy ts w = (res, w') ->
    user.id (fst w') = user.id (fst w)
    /\ user.type (fst w') = user.type (fst w)
    /\ user.name (fst w') = user.name (fst w)
    /\ exists rs : list SimulationResult,
         user.history (fst w') = user.history (fst w) ++ rs
         /\ (List.length rs <= List.length ts)%nat
         /\ (res = Ok tt -> List.length rs = List.length ts)
         /\ Forall (fun r => In (outcome r) V
                             /\ user_id r = user.id (fst w)
                             /\ type r = user.type (fst w)
                             /\ name r = user.name (fst w)) rs.
Proof.
  induction ts as [|t ts IH]; intros w w' res; simpl.
  - intros [= <- <-]. repeat split; try reflexivity.
    exists []. rewrite app_nil_r. repeat split; auto.
  - unfold bind at 1.
    destruct (user.complete_simulation V policy t w) as [[[]|e] w1] eqn:E1.
    + intros E2. apply IH in E2.
      apply complete_simulation_step in E1.
      destruct E1 as (Hi & Ht & Hn & [(_ & o & Ho & Hh) | ((e & He) & _)]);
        [|discriminate].
      destruct E2 as (Hi2 & Ht2 & Hn2 & rs & Hh2 & Hle & Hok & Hall).
      repeat split; try congruence.
      eexists (_ :: rs). rewrite Hh2, Hh, <- app_assoc. simpl.
      repeat split; try reflexivity; try lia.
      * intros Hr. now rewrite Hok.
      * constructor; [simpl; auto|].
        eapply Forall_impl; [|exact Hall]. simpl.
        intros r (? & ? & ? & ?). repeat split; congruence.
    + intros [= <- <-].
      apply complete_simulation_step in E1.
      destruct E1 as (Hi & Ht & Hn & [(Hr & _) | (_ & Hs)]); [discriminate|].
      repeat split; try assumption.
      exists []. rewrite app_nil_r, Hs.
      repeat split; simpl; auto; try lia. discriminate.
Qed.

(** C4. A successful call appends exactly one result and leaves id, type
    and name as they were; a run of calls only extends the history at its
    end, and after N successful calls on a freshly constructed user the
    history has exactly N elements. *)
Theorem C4_history_append_only (policy : user.Policy F) :
  (forall (t : datetime.datetime) (self self' : user.User)
          (g g' : random.State F),
      user.complete_simulation SIMULATION_OUTCOMES policy t (self, g)
      = (Ok tt, (self', g')) ->
      (exists r : SimulationResult,
          user.history self' = user.history self ++ [r])
      /\ user.id self' = user.id self
      /\ user.type self' = user.type self
      /\ user.name self' = user.name self)
  /\ (forall (ts : list datetime.datetime) (self self' : user.User)
             (g g' : random.State F) (res : Result unit),
      user.complete_simulations SIMULATION_OUTCOMES policy ts (self, g)
      = (res, (self', g')) ->
      exists rs : list SimulationResult,
        user.history self' = user.history self ++ rs)
  /\ (forall (ts : list datetime.datetime) (uuid4_hex first_name ty : string)
             (self' : user.User) (g g' : random.State F),
      user.complete_simulations SIMULATION_OUTCOMES policy ts
        (user.User_init uuid4_hex first_name ty, g)
      = (Ok tt, (self', g')) ->
      List.length (user.history self') = List.length ts
      /\ user.simulations_completed self' = Z.of_nat (List.length ts)
      /\ user.id self' = uuid4_hex
      /\ user.type self' = ty
      /\ user.name self' = first_name).
Proof.
  split; [|split].
  - intros t self self' g g' E.
    apply complete_simulation_step in E. simpl in E.
    destruct E as (Hi & Ht & Hn & [(_ & o & _ & Hh) | ((e & He) & _)]);
      [|discriminate].
    repeat split; try assumption. eauto.
  - intros ts self self' g g' res E.
    apply complete_simulations_run in E. simpl in E.
    destruct E as (_ & _ & _ & rs & Hh & _). eauto.
  - intros ts uuid nm ty self' g g' E.
    apply complete_simulations_run in E. simpl in E.
    destruct E as (Hi & Ht & Hn & rs & Hh & _ & Hok & _).
    unfold user.simulations_completed. rewrite Hh. simpl.
    rewrite Hok by reflexivity. repeat split; assumption.
Qed.

End Validation.

(** C5. [non_missed_simulations_completed] is the number of history entries
    whose outcome is not MISS and [simulations_completed] is the history
    length; both are functions of the current history, so they follow every
    append; the former never exceeds the latter. *)
Theorem C5_counts (self : user.User) :
  user.non_missed_simulations_completed self
  = spec.NonMissedCompletedCount (user.history self)
  /\ user.simulations_completed self
     = spec.SimulationsCompletedCount (user.history self)
  /\ user.non_missed_simulations_completed self
     <= user.simulations_completed self
  /\ forall r : SimulationResult,
       user.non_missed_simulations_completed (user.history_append self r)
       = user.non_missed_simulations_completed self
         + (if (outcome r =? "MISS")%string then 0 else 1)
       /\ user.simulations_completed (user.history_append self r)
          = user.simulations_completed self + 1.
Proof.
  split; [apply non_missed_is_count|].
  split; [reflexivity|].
  split.
  - rewrite non_missed_is_count.
    unfold spec.NonMissedCompletedCount, user.simulations_completed.
    apply inj_le, filter_length_le.
  - intros r. split.
    + rewrite !non_missed_is_count. unfold spec.NonMissedCompletedCount.
      simpl. rewrite filter_app, length_app. simpl.
      destruct (outcome r =? "MISS")%string; simpl; lia.
    + unfold user.simulations_completed. simpl. rewrite length_app. simpl.
      lia.
Qed.

(** ** Busy variants and their counterparts *)

Lemma Qltb_lt (x y : Q) : Qltb x y = true <-> (x < y)%Q.
Proof.
  unfold Qltb. rewrite negb_true_iff, <- not_true_iff_false, Qle_bool_iff.
  split; [apply Qnot_le_lt | apply Qlt_not_le].
Qed.

Lemma Q_tenth_below_half (d : Q) :
  flt d float_0_1 = true -> flt d float_0_5 = true.
Proof.
  simpl. rewrite !Qltb_lt. intros Hd.
  eapply Qlt_trans; [exact Hd | reflexivity].
Qed.

Section Busy.

Context {F : Type} `{PyFloat F}.

Lemma miss_iff_first_stage (v : spec.Learner) (n : Z) (draw1 draw2 : F) :
  spec.outcome_name (spec.ProduceOutcome v n draw1 draw2) = "MISS"
  <-> flt draw1 (spec.miss_probability v) = true.
Proof.
  unfold spec.ProduceOutcome.
  destruct (flt draw1 _); [simpl; tauto|].
  destruct (flt draw2 _); simpl; split; discriminate.
Qed.

(** C6. A learner class and its non-Busy counterpart define the same
    success-chance closure and differ only in the miss probability, 0.5
    against 0.1: each returns MISS exactly when the first draw is below its
    own miss probability, and on the same generator state with a first draw
    not below 0.5 both return the same outcome.  The comparison of floats is
    assumed to put everything below 0.1 below 0.5. *)
Theorem C6_busy_counterpart (v : spec.Learner) (self : user.User)
    (g : random.State F) :
  (forall d : F, flt d float_0_1 = true -> flt d float_0_5 = true) ->
  let draw1 := random.uniforms g (random.upos g) in
  let run := fun w =>
    user._get_simulation_outcome SIMULATION_OUTCOMES (spec.class_of w) self g
  in
  spec.closure_of v self g = spec.closure_of (spec.counterpart v) self g
  /\ spec.success_chance v = spec.success_chance (spec.counterpart v)
  /\ spec.miss_probability v
     = (if spec.is_busy v then float_0_5 else float_0_1)
  /\ spec.miss_probability (spec.counterpart v) = float_0_1
  /\ (fst (run v) = Ok "MISS" <-> flt draw1 (spec.miss_probability v) = true)
  /\ (fst (run (spec.counterpart v)) = Ok "MISS"
      <-> flt draw1 float_0_1 = true)
  /\ (flt draw1 float_0_5 = false -> run v = run (spec.counterpart v)).
Proof.
  intros Hord draw1 run.
  split; [destruct v; reflexivity|].
  split; [destruct v; reflexivity|].
  split; [destruct v; reflexivity|].
  split; [destruct v; reflexivity|].
  assert (Hmiss : forall w,
    fst (run w) = Ok "MISS" <-> flt draw1 (spec.miss_probability w) = true).
  { intros w. subst run. cbv beta. rewrite learner_policy_value. cbn [fst].
    rewrite <- (miss_iff_first_stage w
                  (user.non_missed_simulations_completed self) draw1
                  (random.uniforms g (S (random.upos g)))).
    fold draw1. split; [intros [= ->]|intros ->]; reflexivity. }
  split; [apply Hmiss|].
  split.
  { rewrite Hmiss. destruct v; reflexivity. }
  intros Hhalf. subst run. cbv beta. rewrite !learner_policy_value.
  assert (Htenth : flt draw1 float_0_1 = false).
  { destruct (flt draw1 float_0_1) eqn:E; [|reflexivity].
    apply Hord in E. subst draw1. congruence. }
  fold draw1. unfold spec.ProduceOutcome, spec.draws_used.
  destruct v; simpl; rewrite ?Hhalf, ?Htenth; reflexivity.
Qed.

End Busy.

Lemma C6_busy_counterpart_witness :
  let g := random.scripted [7 # 10; 1 # 4]%Q 0%Q [] in
  let self := user.BusySlowLearner_init "u1" "Ann" in
  user._get_simulation_outcome SIMULATION_OUTCOMES user.BusySlowLearner self g
  = user._get_simulation_outcome SIMULATION_OUTCOMES user.SlowLearner self g.
Proof.
  intros g self.
  apply (C6_busy_counterpart spec.BusySlow self g Q_tenth_below_half).
  reflexivity.
Defined.

(** ** The provided classes never raise *)

Section Provided.

Context {F : Type} `{PyFloat F}.

Lemma choice_nonempty {A} (seq : list A) (g : random.State F) :
  seq <> [] ->
  exists x g', random.choice seq g = (Ok x, g') /\ In x seq.
Proof.
  intros Hne. destruct seq as [|a l]; [congruence|].
  unfold random.choice, getitem.
  set (k := Nat.modulo _ _).
  assert (Hk : (k < List.length (a :: l))%nat)
    by (apply Nat.mod_upper_bound; discriminate).
  destruct (nth_error (a :: l) k) as [x|] eqn:E.
  - eexists x, _. split; [reflexivity|]. eapply nth_error_In; eauto.
  - apply nth_error_None in E. lia.
Qed.

Lemma provided_policy_value (cls : user.UserClass) (self : user.User)
    (g : random.State F) :
  exists (o : spec.Outcome) (g' : random.State F),
    user._get_simulation_outcome SIMULATION_OUTCOMES cls self g
    = (Ok (spec.outcome_name o), g').
Proof.
  assert (Hl : forall v, exists o g',
    user._get_simulation_outcome SIMULATION_OUTCOMES (spec.class_of v) self g
    = (Ok (spec.outcome_name o), g')).
  { intros v. rewrite learner_policy_value. eauto. }
  destruct cls;
    [| apply (Hl spec.Quick) | apply (Hl spec.Slow)
     | apply (Hl spec.BusyQuick) | apply (Hl spec.BusySlow)].
  simpl. unfold user.DummyUser_get_simulation_outcome.
  destruct (choice_nonempty SIMULATION_OUTCOMES g) as (x & g' & E & Hin);
    [discriminate|].
  apply declared_outcome_name in Hin. destruct Hin as [o ->]. eauto.
Qed.

(** C7. For each of the five provided classes, every user state and every
    generator state, [_get_simulation_outcome] returns, without raising, one
    of SUCCESS, MISS and FAIL; so [complete_simulation] passes its assertion
    and returns normally. *)
Theorem C7_provided_classes_total (cls : user.UserClass) (self : user.User)
    (g : random.State F) (t : datetime.datetime) :
  (exists (o : spec.Outcome) (g' : random.State F),
      user._get_simulation_outcome SIMULATION_OUTCOMES cls self g
      = (Ok (spec.outcome_name o), g')
      /\ In (spec.outcome_name o) SIMULATION_OUTCOMES
      /\ user.complete_simulation SIMULATION_OUTCOMES
           (user._get_simulation_outcome SIMULATION_OUTCOMES cls) t (self, g)
         = (Ok tt,
            (user.history_append self
               (mkSimulationResult (datetime.strftime t) (user.id self)
                  (user.type self) (user.name self) (spec.outcome_name o)),
             g'))).
Proof.
  destruct (provided_policy_value cls self g) as (o & g' & E).
  exists o, g'. split; [exact E|]. split; [apply outcome_name_declared|].
  rewrite complete_simulation_cases, E.
  destruct o; reflexivity.
Qed.

End Provided.

(** C3, as stated, fails: a policy that raises makes [complete_simulation]
    fail although it has returned no value, inside or outside the vocabulary.
    Here the policy reads the vocabulary at position 3 and so raises the
    index error. *)
Lemma C3_raising_policy_counterexample :
  user.complete_simulation (F:=Q) SIMULATION_OUTCOMES
    (fun _ => getitem SIMULATION_OUTCOMES 3)
    (datetime.mk 2022 3 7 9 5 0)
    (user.User_init "u1" "Ann" "Custom", random.scripted [] 0%Q [])
  = (Raise IndexError,
     (user.User_init "u1" "Ann" "Custom", random.scripted [] 0%Q []))
  /\ ~ (exists o g',
          getitem (S:=random.State Q) SIMULATION_OUTCOMES 3
            (random.scripted [] 0%Q [])
          = (Ok o, g'))
  /\ ~ (forall (policy : user.Policy Q) (t : datetime.datetime)
               (self : user.User) (g : random.State Q),
          is_ok (fst (user.complete_simulation SIMULATION_OUTCOMES policy t
                        (self, g))) = false
          <-> exists o g', policy self g = (Ok o, g')
                           /\ ~ In o SIMULATION_OUTCOMES).
Proof.
  split; [reflexivity|]. split.
  - intros (o & g' & E). discriminate E.
  - intros Hiff.
    destruct (proj1 (Hiff (fun _ => getitem SIMULATION_OUTCOMES 3)
                       (datetime.mk 2022 3 7 9 5 0)
                       (user.User_init "u1" "Ann" "Custom")
                       (random.scripted [] 0%Q [])) eq_refl)
      as (o & g' & E & _).
    discriminate E.
Qed.

Lemma C3_complete_simulation_failures_witness :
  user.history
    (fst (snd (user.complete_simulation (F:=Q) SIMULATION_OUTCOMES
                 (fun _ => ret "FAIL") (datetime.mk 2022 3 7 9 5 0)
                 (user.User_init "u1" "Ann" "Custom",
                  random.scripted [] 0%Q []))))
  = [] ++ [mkSimulationResult "2022-03-07 09:05:00" "u1" "Custom" "Ann"
             "FAIL"]
  /\ user.complete_simulation (F:=Q) SIMULATION_OUTCOMES
       (fun _ => ret "CLICKED") (datetime.mk 2022 3 7 9 5 0)
       (user.User_init "u1" "Ann" "Custom", random.scripted [] 0%Q [])
     = (Raise (AssertionError
          "The outcome from your logic is not a valid simulation outcome."),
        (user.User_init "u1" "Ann" "Custom", random.scripted [] 0%Q [])).
Proof.
  split.
  - apply (proj2 (proj2 (proj2 (proj2
             (C3_complete_simulation_failures (F:=Q) (fun _ => ret "FAIL")
                (datetime.mk 2022 3 7 9 5 0)
                (user.User_init "u1" "Ann" "Custom")
                (random.scripted [] 0%Q [])))))
             "FAIL" (random.scripted [] 0%Q []) eq_refl).
    simpl. auto.
  - apply (proj1 (proj2 (proj2 (proj2
             (C3_complete_simulation_failures (F:=Q) (fun _ => ret "CLICKED")
                (datetime.mk 2022 3 7 9 5 0)
                (user.User_init "u1" "Ann" "Custom")
                (random.scripted [] 0%Q [])))))
             "CLICKED" (random.scripted [] 0%Q []) eq_refl).
    simpl. intros [E|[E|[E|[]]]]; discriminate E.
Defined.

Lemma C4_history_append_only_witness :
  let self := user.QuickLearner_init "u1" "Ann" in
  let g := random.scripted [1 # 2; 1 # 20; 1 # 20; 3 # 4; 9 # 10]%Q 0%Q [] in
  let ts := [datetime.mk 2022 3 1 0 0 0; datetime.mk 2022 3 2 0 0 0;
             datetime.mk 2022 3 3 0 0 0] in
  let w := snd (user.complete_simulations SIMULATION_OUTCOMES
                  (user._get_simulation_outcome SIMULATION_OUTCOMES
                     user.QuickLearner) ts (self, g)) in
  List.length (user.history (fst w)) = 3%nat
  /\ map outcome (user.history (fst w)) = ["SUCCESS"; "MISS"; "FAIL"].
Proof.
  intros self g ts w. split; [|reflexivity].
  apply (proj2 (proj2 (C4_history_append_only
           (user._get_simulation_outcome SIMULATION_OUTCOMES
              user.QuickLearner)))
           ts "u1" "Ann" "QuickLearner" (fst w) g (snd w)).
  reflexivity.
Defined.

(** ** Selection by position *)

(** C8, as stated, fails: with SUCCESS and MISS exchanged in the
    declaration, a QuickLearner with an empty history whose first draw is 1/20
    returns SUCCESS, where under the declared order it returns MISS. *)
Lemma C8_reordering_counterexample :
  Permutation SIMULATION_OUTCOMES ["MISS"; "SUCCESS"; "FAIL"]
  /\ fst (user._get_simulation_outcome SIMULATION_OUTCOMES user.QuickLearner
            (user.QuickLearner_init "u1" "Ann")
            (random.scripted [1 # 20]%Q 0%Q []))
     = Ok "MISS"
  /\ fst (user._get_simulation_outcome ["MISS"; "SUCCESS"; "FAIL"]
            user.QuickLearner
            (user.QuickLearner_init "u1" "Ann")
            (random.scripted [1 # 20]%Q 0%Q []))
     = Ok "SUCCESS"
  /\ ~ (forall V : list string,
          Permutation SIMULATION_OUTCOMES V ->
          forall (v : spec.Learner) (self : user.User) (g : random.State Q),
            fst (user._get_simulation_outcome V (spec.class_of v) self g)
            = fst (user._get_simulation_outcome SIMULATION_OUTCOMES
                     (spec.class_of v) self g)).
Proof.
  split; [apply perm_swap|].
  split; [reflexivity|].
  split; [reflexivity|].
  intros Hinv.
  specialize (Hinv ["MISS"; "SUCCESS"; "FAIL"] (perm_swap _ _ _) spec.Quick
                (user.QuickLearner_init "u1" "Ann")
                (random.scripted [1 # 20]%Q 0%Q [])).
  vm_compute in Hinv. discriminate Hinv.
Qed.

Section Positional.

Context {F : Type} `{PyFloat F}.

(** C8, amended. The learner classes select their outcome by position in
    the vocabulary: position 1 on a miss, position 0 on a success, position 2
    on a failure, and an index error where the vocabulary has no such
    position.  Under the declared order these are MISS, SUCCESS and FAIL, and
    any vocabulary that keeps the three outcomes at these positions gives the
    same result. *)
Theorem C8_selection_by_position (V : list string) (v : spec.Learner)
    (self : user.User) (g : random.State F) :
  let o := spec.ProduceOutcome v (user.non_missed_simulations_completed self)
             (random.uniforms g (random.upos g))
             (random.uniforms g (S (random.upos g))) in
  let g' := random.advance g
              (spec.draws_used v (random.uniforms g (random.upos g))) in
  user._get_simulation_outcome V (spec.class_of v) self g
  = getitem V (spec.position o) g'
  /\ user._get_simulation_outcome SIMULATION_OUTCOMES (spec.class_of v) self g
     = (Ok (spec.outcome_name o), g')
  /\ ((forall x : spec.Outcome,
          nth_error V (spec.position x) = Some (spec.outcome_name x)) ->
      user._get_simulation_outcome V (spec.class_of v) self g
      = user._get_simulation_outcome SIMULATION_OUTCOMES (spec.class_of v)
          self g).
Proof.
  intros o g'.
  split; [apply learner_policy_indexed|].
  split; [apply learner_policy_value|].
  intros Hpos. rewrite learner_policy_value, learner_policy_indexed.
  fold o g'. unfold getitem. now rewrite Hpos.
Qed.

End Positional.

Lemma C8_selection_by_position_witness :
  let V := ["SUCCESS"; "MISS"; "FAIL"; "REPORTED"] in
  let self := user.SlowLearner_init "u2" "Bob" in
  let g := random.scripted [1 # 2; 1 # 20]%Q 0%Q [] in
  user._get_simulation_outcome V user.SlowLearner self g
  = user._get_simulation_outcome SIMULATION_OUTCOMES user.SlowLearner self g.
Proof.
  intros V self g.
  apply (C8_selection_by_position V spec.Slow self g).
  intros x; destruct x; reflexivity.
Defined.

(** ** Results stay bound to their user *)

Section Binding.

Context {F : Type} `{PyFloat F}.

Lemma reachable_bound (V : list string) (policy : user.Policy F)
    (init self : user.User) :
  user.reachable V policy init self ->
  Forall (spec.bound_to init) (user.history init) ->
  user.id self = user.id init
  /\ user.type self = user.type init
  /\ user.name self = user.name init
  /\ Forall (spec.bound_to self) (user.history self)
  /\ exists rs, user.history self = user.history init ++ rs.
Proof.
  intros Hreach Hinit. induction Hreach as [|self self' g g' t res _ IH Hcall].
  - repeat split; try assumption. exists []. now rewrite app_nil_r.
  - destruct IH as (Hi & Ht & Hn & Hall & rs & Hrs).
    apply complete_simulation_step in Hcall. simpl in Hcall.
    destruct Hcall as (Hi' & Ht' & Hn' & Hcase).
    assert (Hb : forall r, spec.bound_to self r -> spec.bound_to self' r).
    { unfold spec.bound_to. intros r (? & ? & ?). repeat split; congruence. }
    repeat split; try congruence.
    + destruct Hcase as [(_ & o & _ & Hh) | (_ & ->)]; [|exact Hall].
      rewrite Hh. apply Forall_app. split.
      * eapply Forall_impl; [exact Hb | exact Hall].
      * constructor; [|constructor]. apply Hb. repeat split.
    + destruct Hcase as [(_ & o & _ & Hh) | (_ & ->)]; [|eauto].
      rewrite Hh, Hrs, <- app_assoc. eauto.
Qed.

Lemma rows_of_other (u u' : user.User) :
  Forall (spec.bound_to u') (user.history u') ->
  user.id u' <> user.id u ->
  filter (fun r => (user_id r =? user.id u)%string) (user.history u') = [].
Proof.
  intros Hall Hne. induction Hall as [|r l (Hr & _) _ IH]; [reflexivity|].
  simpl. rewrite IH. rewrite Hr.
  destruct (String.eqb_spec (user.id u') (user.id u)); [contradiction|].
  reflexivity.
Qed.

Lemma rows_of_own (u : user.User) :
  Forall (spec.bound_to u) (user.history u) ->
  filter (fun r => (user_id r =? user.id u)%string) (user.history u)
  = user.history u.
Proof.
  intros Hall. induction Hall as [|r l (Hr & _) _ IH]; [reflexivity|].
  simpl. rewrite IH, Hr, String.eqb_refl. reflexivity.
Qed.

Lemma rows_of_population (u : user.User) (population : list user.User) :
  Forall (fun u' => Forall (spec.bound_to u') (user.history u')) population ->
  NoDup (map user.id population) ->
  In u population ->
  spec.rows_of u population = user.history u.
Proof.
  unfold spec.rows_of. intros Hall Hnd Hin.
  induction population as [|u' us IH]; [contradiction|].
  inversion Hall as [|? ? Hu' Hus]; subst.
  inversion Hnd as [|? ? Hnotin Hnd']; subst.
  simpl. rewrite filter_app. destruct Hin as [->|Hin].
  - rewrite rows_of_own by assumption.
    assert (Hrest : filter (fun r => (user_id r =? user.id u)%string)
                      (flat_map user.history us) = []).
    { clear IH Hall Hnd Hnd'. induction us as [|u2 us IH2]; [reflexivity|].
      inversion Hus; subst. simpl. rewrite filter_app.
      rewrite rows_of_other; [|assumption|].
      - simpl. apply IH2; [assumption|].
        intros Hin. apply Hnotin. now right.
      - intros E. apply Hnotin. left. exact E. }
    rewrite Hrest. apply app_nil_r.
  - rewrite rows_of_other; [|assumption|].
    + simpl. now apply IH.
    + intros E. apply Hnotin. rewrite E. now apply in_map.
Qed.

(** C10. In every state a user can reach from its construction, id, type
    and name are those given at construction and every history entry carries
    them; hence, in a table that flattens the histories of reachable users
    with pairwise distinct ids, the rows selected by a user's id are exactly
    that user's history. *)
Theorem C10_results_bound_to_user (policy : user.Policy F) :
  (forall (uuid4_hex first_name ty : string) (u : user.User),
      user.reachable SIMULATION_OUTCOMES policy
        (user.User_init uuid4_hex first_name ty) u ->
      user.id u = uuid4_hex /\ user.type u = ty /\ user.name u = first_name
      /\ forall r, In r (user.history u) ->
           user_id r = user.id u /\ type r = user.type u
           /\ name r = user.name u)
  /\ (forall population : list user.User,
        Forall (fun u => exists uuid4_hex first_name ty,
                  user.reachable SIMULATION_OUTCOMES policy
                    (user.User_init uuid4_hex first_name ty) u) population ->
        NoDup (map user.id population) ->
        forall u, In u population ->
          spec.rows_of u population = user.history u).
Proof.
  assert (Hreach : forall uuid nm ty u,
    user.reachable SIMULATION_OUTCOMES policy (user.User_init uuid nm ty) u ->
    user.id u = uuid /\ user.type u = ty /\ user.name u = nm
    /\ Forall (spec.bound_to u) (user.history u)).
  { intros uuid nm ty u Hr.
    apply reachable_bound in Hr; [|constructor].
    destruct Hr as (? & ? & ? & ? & _). repeat split; assumption. }
  split.
  - intros uuid nm ty u Hr. apply Hreach in Hr.
    destruct Hr as (Hi & Ht & Hn & Hall).
    repeat split; try assumption;
      rewrite Forall_forall in Hall; now apply Hall.
  - intros population Hpop Hnd u Hin.
    apply rows_of_population; try assumption.
    eapply Forall_impl; [|exact Hpop]. simpl.
    intros u' (uuid & nm & ty & Hr). now apply Hreach in Hr.
Qed.

End Binding.

(** ** The aggregation queries *)

Section QueryFacts.

Variables K O : Type.
Variable q : sql.QueryParams K O.

Hypothesis group_eqb_eq :
  forall k k', sql.group_eqb q k k' = true <-> k = k'.

(** The group key as it can be read back from an output row. *)
Variable key_of : O -> K.
Hypothesis key_of_dimensions :
  forall r group, key_of (sql.dimensions q r group) = sql.group_by q r.

Lemma seen_In (k : K) (seen : list K) :
  existsb (sql.group_eqb q k) seen = true <-> In k seen.
Proof.
  rewrite existsb_exists. split.
  - intros (k' & Hin & E). apply group_eqb_eq in E. now subst.
  - intros Hin. exists k. split; [exact Hin | now apply group_eqb_eq].
Qed.

Lemma first_rows_In (r : sql.Row) (table : list sql.Row) :
  forall seen, In r (sql.first_rows q seen table) ->
    In r table /\ ~ In (sql.group_by q r) seen.
Proof.
  induction table as [|r0 rest IH]; intros seen; simpl; [tauto|].
  destruct (existsb _ seen) eqn:E.
  - intros Hin. apply IH in Hin. tauto.
  - intros [<-|Hin].
    + split; [now left|]. rewrite <- seen_In. congruence.
    + apply IH in Hin. simpl in Hin. tauto.
Qed.

Lemma first_rows_NoDup (table : list sql.Row) :
  forall seen, NoDup (map (sql.group_by q) (sql.first_rows q seen table)).
Proof.
  induction table as [|r0 rest IH]; intros seen; simpl; [constructor|].
  destruct (existsb _ seen) eqn:E; [apply IH|].
  simpl. constructor; [|apply IH].
  rewrite in_map_iff. intros (r & Hk & Hin).
  apply first_rows_In in Hin. destruct Hin as [_ Hnot].
  apply Hnot. rewrite Hk. now left.
Qed.

Lemma first_rows_complete (r : sql.Row) (table : list sql.Row) :
  forall seen, In r table -> ~ In (sql.group_by q r) seen ->
    exists r0, In r0 (sql.first_rows q seen table)
               /\ sql.group_by q r0 = sql.group_by q r.
Proof.
  induction table as [|r1 rest IH]; intros seen; simpl; [tauto|].
  intros [->|Hin] Hnot.
  - destruct (existsb _ seen) eqn:E.
    + apply seen_In in E. contradiction.
    + exists r. split; [now left | reflexivity].
  - destruct (existsb _ seen) eqn:E; [now apply IH|].
    destruct (group_eqb_eq (sql.group_by q r1) (sql.group_by q r)) as [_ Hk].
    destruct (sql.group_eqb q (sql.group_by q r1) (sql.group_by q r)) eqn:E1.
    + exists r1. split; [now left | now apply group_eqb_eq].
    + destruct (IH (sql.group_by q r1 :: seen) Hin) as (r0 & Hin0 & Hk0).
      * intros [E2|Hs]; [|contradiction].
        apply Hk in E2. congruence.
      * exists r0. split; [now right | exact Hk0].
Qed.

Lemma insert_row_perm (o : O) (l : list O) :
  Permutation (o :: l) (sql.insert_row q o l).
Proof.
  induction l as [|o' l IH]; simpl; [reflexivity|].
  destruct (_ <=? _)%string; [reflexivity|].
  rewrite perm_swap. now constructor.
Qed.

Lemma ORDER_BY_perm (l : list O) : Permutation l (sql.ORDER_BY q l).
Proof.
  induction l as [|o l IH]; simpl; [constructor|].
  rewrite <- insert_row_perm. now constructor.
Qed.

Lemma insert_row_sorted (o : O) (l : list O) :
  Sorted (sql.ordered q) l -> Sorted (sql.ordered q) (sql.insert_row q o l).
Proof.
  induction l as [|o' l IH]; simpl; intros Hs.
  - repeat constructor.
  - destruct (sql.order_by q o <=? sql.order_by q o')%string eqn:E.
    + constructor; [exact Hs|]. constructor. exact E.
    + apply Sorted_inv in Hs. destruct Hs as [Hs Hhd].
      constructor; [now apply IH|].
      assert (Ho : sql.ordered q o' o).
      { unfold sql.ordered.
        destruct (String.leb_total (sql.order_by q o) (sql.order_by q o'));
          congruence. }
      destruct l as [|o2 l]; simpl.
      * constructor. exact Ho.
      * destruct (sql.order_by q o <=? sql.order_by q o2)%string;
          constructor; [exact Ho|].
        now apply HdRel_inv in Hhd.
Qed.

Lemma ORDER_BY_sorted (l : list O) : Sorted (sql.ordered q) (sql.ORDER_BY q l).
Proof.
  induction l as [|o l IH]; simpl; [constructor|].
  now apply insert_row_sorted.
Qed.

(** The result of a query: ordered, one row per group, every group of the
    table present, every row computed from its group. *)
Lemma query_db_to_df_spec (table : list sql.Row) :
  Sorted (sql.ordered q) (sql.query_db_to_df q table)
  /\ NoDup (map key_of (sql.query_db_to_df q table))
  /\ (forall o, In o (sql.query_db_to_df q table) ->
        exists r, In r table
                  /\ o = sql.dimensions q r (sql.group_of q r table))
  /\ (forall r, In r table ->
        exists o, In o (sql.query_db_to_df q table)
                  /\ key_of o = sql.group_by q r).
Proof.
  unfold sql.query_db_to_df.
  pose proof (ORDER_BY_perm (sql.GROUP_BY q table)) as Hperm.
  split; [apply ORDER_BY_sorted|].
  split; [|split].
  - eapply Permutation_NoDup; [apply Permutation_map; exact Hperm|].
    unfold sql.GROUP_BY. rewrite map_map.
    erewrite map_ext; [apply (first_rows_NoDup table [])|].
    intros r. apply key_of_dimensions.
  - intros o Hin. apply Permutation_sym in Hperm.
    apply (Permutation_in _ Hperm) in Hin.
    unfold sql.GROUP_BY in Hin. apply in_map_iff in Hin.
    destruct Hin as (r & <- & Hr). apply first_rows_In in Hr.
    exists r. split; [tauto | reflexivity].
  - intros r Hin.
    destruct (first_rows_complete r table [] Hin) as (r0 & Hin0 & Hk);
      [tauto|].
    exists (sql.dimensions q r0 (sql.group_of q r0 table)). split.
    + apply (Permutation_in _ Hperm). unfold sql.GROUP_BY.
      apply in_map_iff. eauto.
    + now rewrite key_of_dimensions.
Qed.

End QueryFacts.

Lemma filter_filter {A} (f g : A -> bool) (l : list A) :
  filter f (filter g l) = filter (fun x => g x && f x) l.
Proof.
  induction l as [|x l IH]; simpl; [reflexivity|].
  destruct (g x); simpl; [destruct (f x)|]; now rewrite IH.
Qed.

Lemma types_key_eq (k k' : string * string) :
  sql.group_eqb main.query_params__types k k' = true <-> k = k'.
Proof.
  destruct k as [a b], k' as [a' b']. simpl.
  rewrite andb_true_iff, !String.eqb_eq. split.
  - intros [-> ->]. reflexivity.
  - intros [= -> ->]. auto.
Qed.

Lemma types_row_counts (r : sql.Row) (table : list sql.Row) :
  let o := sql.dimensions main.query_params__types r
             (sql.group_of main.query_params__types r table) in
  main.successes o
  = aggregation.count_rows
      (fun r' => aggregation.month_type_is (main.date o) (main.type o) r'
                 && main.outcome_is "SUCCESS" r') table
  /\ main.fails o
     = aggregation.count_rows
         (fun r' => aggregation.month_type_is (main.date o) (main.type o) r'
                    && main.outcome_is "FAIL" r') table.
Proof.
  simpl. unfold sql.COUNT_CASE_WHEN, sql.group_of, aggregation.count_rows.
  rewrite !filter_filter. split; reflexivity.
Qed.

Lemma individuals_row_counts (r : sql.Row) (table : list sql.Row) :
  let o := sql.dimensions main.query_params__individuals r
             (sql.group_of main.query_params__individuals r table) in
  main.i_successes o
  = aggregation.count_rows
      (fun r' => aggregation.user_is (main.i_user_id o) r'
                 && main.outcome_is "SUCCESS" r') table
  /\ main.i_fails o
     = aggregation.count_rows
         (fun r' => aggregation.user_is (main.i_user_id o) r'
                    && main.outcome_is "FAIL" r') table
  /\ main.i_misses o
     = aggregation.count_rows
         (fun r' => aggregation.user_is (main.i_user_id o) r'
                    && main.outcome_is "MISS" r') table.
Proof.
  simpl. unfold sql.COUNT_CASE_WHEN, sql.group_of, aggregation.count_rows.
  rewrite !filter_filter. repeat split; reflexivity.
Qed.

(** *** Month texts order as months do *)

Section MonthOrder.

Import datetime.
Local Open Scope nat_scope.







End MonthOrder.



Lemma C10_results_bound_to_user_witness :
  let policy :=
    user._get_simulation_outcome (F:=Q) SIMULATION_OUTCOMES user.SlowLearner in
  let init := user.SlowLearner_init "u2" "Bob" in
  let g := random.scripted [1 # 2; 1 # 20]%Q 0%Q [] in
  let u := fst (snd (user.complete_simulation SIMULATION_OUTCOMES policy
                       (datetime.mk 2022 3 7 9 5 0) (init, g))) in
  user.id u = "u2" /\ user.type u = "SlowLearner" /\ user.name u = "Bob"
  /\ forall r, In r (user.history u) ->
       user_id r = user.id u /\ type r = user.type u /\ name r = user.name u.
Proof.
  intros policy init g u.
  apply (proj1 (C10_results_bound_to_user policy) "u2" "Bob" "SlowLearner" u).
  eapply (user.reach_call SIMULATION_OUTCOMES policy init init u g).
  - apply user.reach_init.
  - reflexivity.
Defined.

(** * Further properties of [user.py] *)

Lemma count_app (l1 l2 : list SimulationResult) :
  spec.NonMissedCompletedCount (l1 ++ l2)
  = spec.NonMissedCompletedCount l1 + spec.NonMissedCompletedCount l2.
Proof.
  unfold spec.NonMissedCompletedCount.
  rewrite filter_app, length_app. lia.
Qed.

Lemma non_missed_append (self : user.User) (r : SimulationResult) :
  user.non_missed_simulations_completed (user.history_append self r)
  = user.non_missed_simulations_completed self
    + (if (outcome r =? "MISS")%string then 0 else 1).
Proof.
  rewrite !non_missed_is_count. simpl. rewrite count_app.
  unfold spec.NonMissedCompletedCount at 2. simpl.
  destruct (outcome r =? "MISS")%string; reflexivity.
Qed.

Section Lifetime.

Context {F : Type} `{PyFloat F}.
Variable V : list string.
Variable policy : user.Policy F.

Lemma reachable_history (init u : user.User) :
  user.reachable V policy init u ->
  exists rs : list SimulationResult,
    user.history u = user.history init ++ rs
    /\ Forall (fun r => In (outcome r) V) rs.
Proof.
  intros Hreach. induction Hreach as [|self self' g g' t res _ IH Hcall].
  - exists []. split; [now rewrite app_nil_r | constructor].
  - destruct IH as (rs & Hrs & Hall).
    apply complete_simulation_step in Hcall. simpl in Hcall.
    destruct Hcall as (_ & _ & _ & [(_ & o & Ho & Hh) | (_ & ->)]).
    + eexists (rs ++ [_]). rewrite Hh, Hrs, <- app_assoc.
      split; [reflexivity|]. apply Forall_app. split; [exact Hall|].
      constructor; [exact Ho | constructor].
    + exists rs. auto.
Qed.

(** X1. Whatever the policy and the vocabulary, every entry of the history of
    a user grown from its construction holds an outcome of the vocabulary: the
    assertion keeps anything else out. *)
Theorem X1_recorded_outcomes_in_vocabulary
    (uuid4_hex first_name ty : string) (u : user.User) :
  user.reachable V policy (user.User_init uuid4_hex first_name ty) u ->
  forall r, In r (user.history u) -> In (outcome r) V.
Proof.
  intros Hreach r Hin.
  destruct (reachable_history _ _ Hreach) as (rs & Hrs & Hall).
  simpl in Hrs. rewrite Hrs in Hin.
  rewrite Forall_forall in Hall. now apply Hall.
Qed.

(** X3. Along the life of a user neither count ever decreases, and the number
    of missed simulations, their difference, does not decrease either. *)
Theorem X3_counts_never_decrease (init u : user.User) :
  user.reachable V policy init u ->
  user.non_missed_simulations_completed init
  <= user.non_missed_simulations_completed u
  /\ user.simulations_completed init <= user.simulations_completed u
  /\ user.simulations_completed init
     - user.non_missed_simulations_completed init
     <= user.simulations_completed u
        - user.non_missed_simulations_completed u.
Proof.
  intros Hreach.
  destruct (reachable_history _ _ Hreach) as (rs & Hrs & _).
  rewrite !non_missed_is_count. unfold user.simulations_completed.
  rewrite Hrs, count_app, length_app.
  assert (0 <= spec.NonMissedCompletedCount rs
          <= Z.of_nat (List.length rs)).
  { unfold spec.NonMissedCompletedCount. split; [lia|].
    apply inj_le, filter_length_le. }
  lia.
Qed.

(** X2. A run of calls splits into a number k of calls that all returned
    normally, followed, when the run raised, by the one call that raised and
    left the user untouched.  The history after the run has the entries that
    were there before, then the formatted timestamps of exactly those k calls,
    in the order of the calls; when the run did not raise, k is the number of
    all the calls. *)
Theorem X2_timestamps_in_call_order (ts : list datetime.datetime) :
  forall (self self' : user.User) (g g' : random.State F)
         (res : Result unit),
    user.complete_simulations V policy ts (self, g) = (res, (self', g')) ->
    exists (k : nat) (g1 : random.State F),
      (k <= List.length ts)%nat
      /\ user.complete_simulations V policy (firstn k ts) (self, g)
         = (Ok tt, (self', g1))
      /\ map timestamp (user.history self')
         = map timestamp (user.history self)
           ++ map datetime.strftime (firstn k ts)
      /\ List.length (user.history self')
         = (List.length (user.history self) + k)%nat
      /\ match res with
         | Ok _ => k = List.length ts /\ g1 = g'
         | Raise e =>
             exists t, nth_error ts k = Some t
               /\ user.complete_simulation V policy t (self', g1)
                  = (Raise e, (self', g'))
         end.
Proof.
  induction ts as [|t ts IH]; intros self self' g g' res; simpl.
  - intros [= <- <- <-]. exists 0%nat, g. simpl. rewrite app_nil_r.
    repeat split; auto.
  - unfold bind at 1.
    destruct (user.complete_simulation V policy t (self, g))
      as [[[]|e] [self1 g1]] eqn:E1.
    + intros E2. apply IH in E2.
      destruct E2 as (k & g2 & Hk & Hrun & Hts & Hlen & Hres).
      pose proof E1 as Hstep.
      apply complete_simulation_step in Hstep. simpl in Hstep.
      destruct Hstep as (_ & _ & _ & [(_ & o & _ & Hh) | ((e & He) & _)]);
        [|discriminate].
      exists (S k), g2. split; [simpl; lia|]. split.
      { simpl. unfold bind at 1. rewrite E1. exact Hrun. }
      split.
      { rewrite Hts, Hh, map_app, <- app_assoc. reflexivity. }
      split.
      { rewrite Hlen, Hh, length_app. simpl. lia. }
      destruct res as [u|e].
      * destruct Hres as [-> ->]. auto.
      * exact Hres.
    + intros [= <- <- <-].
      pose proof E1 as Hstep.
      apply complete_simulation_step in Hstep. simpl in Hstep.
      destruct Hstep as (_ & _ & _ & [(Hr & _) | (_ & Hs)]); [discriminate|].
      subst self1.
      exists 0%nat, g. simpl. rewrite app_nil_r.
      split; [lia|]. split; [reflexivity|]. split; [reflexivity|].
      split; [lia|]. exists t. split; [reflexivity | exact E1].
Qed.

End Lifetime.

Lemma X1_recorded_outcomes_in_vocabulary_witness :
  let policy :=
    user._get_simulation_outcome (F:=Q) SIMULATION_OUTCOMES user.QuickLearner
  in
  let init := user.QuickLearner_init "u1" "Ann" in
  let g := random.scripted [1 # 2; 1 # 20]%Q 0%Q [] in
  let u := fst (snd (user.complete_simulation SIMULATION_OUTCOMES policy
                       (datetime.mk 2022 3 7 9 5 0) (init, g))) in
  In (outcome
        (mkSimulationResult "2022-03-07 09:05:00" "u1" "QuickLearner" "Ann"
           "SUCCESS"))
     SIMULATION_OUTCOMES.
Proof.
  intros policy init g u.
  apply (X1_recorded_outcomes_in_vocabulary SIMULATION_OUTCOMES policy
           "u1" "Ann" "QuickLearner" u).
  - eapply (user.reach_call SIMULATION_OUTCOMES policy init init u g).
    + apply user.reach_init.
    + reflexivity.
  - simpl. auto.
Defined.

Lemma X2_timestamps_in_call_order_witness :
  exists (k : nat) (g1 : random.State Q),
    (k <= 3)%nat
    /\ user.complete_simulations SIMULATION_OUTCOMES
         (fun self => if user.simulations_completed self =? 2
                      then ret "CLICKED"
                      else user.SlowLearner_get_simulation_outcome
                             SIMULATION_OUTCOMES self)
         (firstn k [datetime.mk 2022 3 1 8 0 0; datetime.mk 2022 3 2 8 0 0;
                    datetime.mk 2022 3 3 8 0 0])
         (user.SlowLearner_init "u2" "Bob",
          random.scripted [1 # 2; 1 # 20; 1 # 20]%Q 0%Q [])
       = (Ok tt,
          (user.mkUser "u2" "SlowLearner" "Bob"
             [mkSimulationResult "2022-03-01 08:00:00" "u2" "SlowLearner"
                "Bob" "SUCCESS";
              mkSimulationResult "2022-03-02 08:00:00" "u2" "SlowLearner"
                "Bob" "MISS"], g1))
    /\ map timestamp
         [mkSimulationResult "2022-03-01 08:00:00" "u2" "SlowLearner"
            "Bob" "SUCCESS";
          mkSimulationResult "2022-03-02 08:00:00" "u2" "SlowLearner"
            "Bob" "MISS"]
       = map timestamp [] ++
         map datetime.strftime
           (firstn k [datetime.mk 2022 3 1 8 0 0; datetime.mk 2022 3 2 8 0 0;
                      datetime.mk 2022 3 3 8 0 0])
    /\ 2%nat = (0 + k)%nat
    /\ exists t,
         nth_error [datetime.mk 2022 3 1 8 0 0; datetime.mk 2022 3 2 8 0 0;
                    datetime.mk 2022 3 3 8 0 0] k = Some t
         /\ user.complete_simulation SIMULATION_OUTCOMES
              (fun self => if user.simulations_completed self =? 2
                           then ret "CLICKED"
                           else user.SlowLearner_get_simulation_outcome
                                  SIMULATION_OUTCOMES self)
              t
              (user.mkUser "u2" "SlowLearner" "Bob"
                 [mkSimulationResult "2022-03-01 08:00:00" "u2" "SlowLearner"
                    "Bob" "SUCCESS";
                  mkSimulationResult "2022-03-02 08:00:00" "u2" "SlowLearner"
                    "Bob" "MISS"], g1)
            = (Raise (AssertionError
                 "The outcome from your logic is not a valid simulation outcome."),
               (user.mkUser "u2" "SlowLearner" "Bob"
                  [mkSimulationResult "2022-03-01 08:00:00" "u2"
                     "SlowLearner" "Bob" "SUCCESS";
                   mkSimulationResult "2022-03-02 08:00:00" "u2"
                     "SlowLearner" "Bob" "MISS"],
                random.advance
                  (random.scripted [1 # 2; 1 # 20; 1 # 20]%Q 0%Q []) 3)).
Proof.
  apply (X2_timestamps_in_call_order SIMULATION_OUTCOMES
           (fun self => if user.simulations_completed self =? 2
                        then ret "CLICKED"
                        else user.SlowLearner_get_simulation_outcome
                               SIMULATION_OUTCOMES self)
           [datetime.mk 2022 3 1 8 0 0; datetime.mk 2022 3 2 8 0 0;
            datetime.mk 2022 3 3 8 0 0]
           (user.SlowLearner_init "u2" "Bob")
           (user.mkUser "u2" "SlowLearner" "Bob"
              [mkSimulationResult "2022-03-01 08:00:00" "u2" "SlowLearner"
                 "Bob" "SUCCESS";
               mkSimulationResult "2022-03-02 08:00:00" "u2" "SlowLearner"
                 "Bob" "MISS"])
           (random.scripted [1 # 2; 1 # 20; 1 # 20]%Q 0%Q [])
           (random.advance
              (random.scripted [1 # 2; 1 # 20; 1 # 20]%Q 0%Q []) 3)
           (Raise (AssertionError
              "The outcome from your logic is not a valid simulation outcome."))).
  reflexivity.
Defined.

Lemma X3_counts_never_decrease_witness :
  let policy :=
    user._get_simulation_outcome (F:=Q) SIMULATION_OUTCOMES
      user.BusyQuickLearner in
  let init := user.BusyQuickLearner_init "u3" "Cy" in
  let g := random.scripted [2 # 5]%Q 0%Q [] in
  let u := fst (snd (user.complete_simulation SIMULATION_OUTCOMES policy
                       (datetime.mk 2022 3 7 9 5 0) (init, g))) in
  user.non_missed_simulations_completed init
  <= user.non_missed_simulations_completed u
  /\ user.simulations_completed init <= user.simulations_completed u
  /\ user.simulations_completed init
     - user.non_missed_simulations_completed init
     <= user.simulations_completed u
        - user.non_missed_simulations_completed u.
Proof.
  intros policy init g u.
  apply (X3_counts_never_decrease SIMULATION_OUTCOMES policy init u).
  eapply (user.reach_call SIMULATION_OUTCOMES policy init init u g).
  - apply user.reach_init.
  - reflexivity.
Defined.

Section AnyVocabulary.

Context {F : Type} `{PyFloat F}.
Variable V : list string.


(** X5. With any vocabulary, a DummyUser's [complete_simulation] never fails
    its assertion: on an empty vocabulary it raises the index error and the
    user is left as it was; on any other it returns normally, and the history
    is the old history followed by one result whose outcome is an element of
    the vocabulary, whatever the user's history was. *)
Theorem X5_dummy_user_any_vocabulary (self : user.User)
    (g : random.State F) (t : datetime.datetime) :
  let r := user.complete_simulation V
             (user._get_simulation_outcome V user.DummyUser) t (self, g) in
  (V = [] -> fst r = Raise IndexError /\ fst (snd r) = self)
  /\ (V <> [] ->
      exists x,
        In x V
        /\ fst r = Ok tt
        /\ user.history (fst (snd r))
           = user.history self
             ++ [mkSimulationResult (datetime.strftime t) (user.id self)
                   (user.type self) (user.name self) x]
        /\ user.id (fst (snd r)) = user.id self
        /\ user.type (fst (snd r)) = user.type self
        /\ user.name (fst (snd r)) = user.name self).
Proof.
  intros r. subst r. split.
  - intros ->. rewrite complete_simulation_cases. split; reflexivity.
  - intros Hne. rewrite complete_simulation_cases. simpl.
    unfold user.DummyUser_get_simulation_outcome.
    destruct (choice_nonempty V g Hne) as (x & g' & E & Hin).
    rewrite E. exists x. split; [exact Hin|].
    apply (contains_In V) in Hin. rewrite Hin.
    repeat split; reflexivity.
Qed.

End AnyVocabulary.

Lemma X5_dummy_user_any_vocabulary_witness :
  (fst (user.complete_simulation (F:=Q) []
          (user._get_simulation_outcome [] user.DummyUser)
          (datetime.mk 2022 3 7 9 5 0)
          (user.DummyUser_init "u4" "Di", random.scripted [] 0%Q []))
   = Raise IndexError
   /\ fst (snd (user.complete_simulation (F:=Q) []
                  (user._get_simulation_outcome [] user.DummyUser)
                  (datetime.mk 2022 3 7 9 5 0)
                  (user.DummyUser_init "u4" "Di", random.scripted [] 0%Q [])))
      = user.DummyUser_init "u4" "Di")
  /\ exists x,
       In x ["YES"; "NO"]
       /\ fst (user.complete_simulation (F:=Q) ["YES"; "NO"]
                 (user._get_simulation_outcome ["YES"; "NO"] user.DummyUser)
                 (datetime.mk 2022 3 7 9 5 0)
                 (user.DummyUser_init "u4" "Di",
                  random.scripted [] 0%Q [5%nat]))
          = Ok tt
       /\ user.history
            (fst (snd (user.complete_simulation (F:=Q) ["YES"; "NO"]
                         (user._get_simulation_outcome ["YES"; "NO"]
                            user.DummyUser)
                         (datetime.mk 2022 3 7 9 5 0)
                         (user.DummyUser_init "u4" "Di",
                          random.scripted [] 0%Q [5%nat]))))
          = [] ++ [mkSimulationResult "2022-03-07 09:05:00" "u4" "Dummy" "Di"
                     x]
       /\ "u4" = "u4" /\ "Dummy" = "Dummy" /\ "Di" = "Di".
Proof.
  split.
  - apply (proj1 (X5_dummy_user_any_vocabulary (F:=Q) []
                    (user.DummyUser_init "u4" "Di")
                    (random.scripted [] 0%Q [])
                    (datetime.mk 2022 3 7 9 5 0)) eq_refl).
  - apply (proj2 (X5_dummy_user_any_vocabulary (F:=Q) ["YES"; "NO"]
                    (user.DummyUser_init "u4" "Di")
                    (random.scripted [] 0%Q [5%nat])
                    (datetime.mk 2022 3 7 9 5 0))).
    discriminate.
Defined.

Section Learning.

Context {F : Type} `{PyFloat F}.

(** X7. A learner's call always succeeds; a recorded MISS leaves the
    non-missed count, and with it the success chance of the next call, as it
    was, and any other outcome raises the count by one. *)
Theorem X7_only_non_missed_events_teach (v : spec.Learner)
    (self : user.User) (g : random.State F) (t : datetime.datetime) :
  let n := user.non_missed_simulations_completed self in
  let missed := flt (random.uniforms g (random.upos g))
                  (spec.miss_probability v) in
  let n' := n + (if missed then 0 else 1) in
  exists (self' : user.User) (g' : random.State F),
    user.complete_simulation SIMULATION_OUTCOMES
      (user._get_simulation_outcome SIMULATION_OUTCOMES (spec.class_of v))
      t (self, g)
    = (Ok tt, (self', g'))
    /\ user.non_missed_simulations_completed self' = n'
    /\ forall g2 : random.State F,
         spec.closure_of v self' g2 = (Ok (spec.success_chance v n'), g2).
Proof.
  intros n missed n'.
  rewrite complete_simulation_cases, learner_policy_value.
  fold n. set (o := spec.ProduceOutcome v n _ _).
  assert (Hc : user.contains SIMULATION_OUTCOMES (spec.outcome_name o)
               = true) by (destruct o; reflexivity).
  rewrite Hc. eexists _, _. split; [reflexivity|].
  assert (Hn : user.non_missed_simulations_completed
                 (user.history_append self
                    (mkSimulationResult (datetime.strftime t) (user.id self)
                       (user.type self) (user.name self)
                       (spec.outcome_name o))) = n').
  { rewrite non_missed_append. cbn [outcome]. subst n' o missed.
    unfold spec.ProduceOutcome.
    destruct (flt (random.uniforms g (random.upos g)) _); [reflexivity|].
    destruct (flt _ _); reflexivity. }
  split; [exact Hn|]. intros g2. now rewrite closure_value, Hn.
Qed.

End Learning.

(** ** Comparing learners over exact rationals *)

Lemma Qltb_le_trans (d a b : Q) :
  (a <= b)%Q -> Qltb d a = true -> Qltb d b = true.
Proof.
  rewrite !Qltb_lt. intros Hab Hd. eapply Qlt_le_trans; eauto.
Qed.

Lemma curve_monotone (v : spec.Learner) (n m : Z) :
  0 <= n -> n <= m ->
  (spec.success_chance (F:=Q) v n <= spec.success_chance (F:=Q) v m)%Q.
Proof.
  intros Hn Hm. destruct (Z.eq_dec n m) as [->|Hne].
  - apply Qle_refl.
  - apply Qlt_le_weak, curve_increasing; lia.
Qed.

Lemma slow_quick_curves (n : Z) :
  0 <= n ->
  (spec.success_chance (F:=Q) spec.Slow (3 * n)
   == spec.success_chance (F:=Q) spec.Quick n)%Q
  /\ (spec.success_chance (F:=Q) spec.Slow n
      <= spec.success_chance (F:=Q) spec.Quick n)%Q
  /\ (0 < n ->
      (spec.success_chance (F:=Q) spec.Slow n
       < spec.success_chance (F:=Q) spec.Quick n)%Q).
Proof.
  intros Hn.
  rewrite (curve_form spec.Slow (3 * n)), (curve_form spec.Slow n),
    (curve_form spec.Quick n) by lia.
  cbn [spec.offsets fst snd]. unfold Qeq, Qle, Qlt. cbn [Qnum Qden].
  rewrite !Z2Pos.id by lia. repeat split; intros; nia.
Qed.

(** X6. Over exact rationals a SlowLearner is three times slower than a
    QuickLearner: its success chance after 3n non-missed simulations is the
    QuickLearner's after n; with equal experience it is never above the
    QuickLearner's, and strictly below once there is any experience. *)
Theorem X6_slow_three_times_slower (slow quick : user.User)
    (g : random.State Q) :
  exists a b : Q,
    user.SlowLearner_success_chance slow g = (Ok a, g)
    /\ user.QuickLearner_success_chance quick g = (Ok b, g)
    /\ (user.non_missed_simulations_completed slow
        = 3 * user.non_missed_simulations_completed quick -> (a == b)%Q)
    /\ (user.non_missed_simulations_completed slow
        = user.non_missed_simulations_completed quick -> (a <= b)%Q)
    /\ (user.non_missed_simulations_completed slow
        = user.non_missed_simulations_completed quick ->
        0 < user.non_missed_simulations_completed quick -> (a < b)%Q).
Proof.
  pose proof (closure_value spec.Slow slow g) as Hs.
  pose proof (closure_value spec.Quick quick g) as Hq.
  simpl spec.closure_of in Hs, Hq.
  eexists _, _. split; [exact Hs|]. split; [exact Hq|].
  pose proof (non_missed_nonneg quick) as Hn.
  destruct (slow_quick_curves _ Hn) as (H3 & Hle & Hlt).
  split; [|split].
  - intros ->. exact H3.
  - intros ->. exact Hle.
  - intros -> Hpos. now apply Hlt.
Qed.

Lemma X6_slow_three_times_slower_witness :
  exists a b : Q,
    user.SlowLearner_success_chance (user.SlowLearner_init "u2" "Bob")
      (random.scripted [] 0%Q []) = (Ok a, random.scripted [] 0%Q [])
    /\ user.QuickLearner_success_chance (user.QuickLearner_init "u1" "Ann")
         (random.scripted [] 0%Q []) = (Ok b, random.scripted [] 0%Q [])
    /\ (a == b)%Q.
Proof.
  destruct (X6_slow_three_times_slower (user.SlowLearner_init "u2" "Bob")
              (user.QuickLearner_init "u1" "Ann") (random.scripted [] 0%Q []))
    as (a & b & Hs & Hq & H3 & _).
  exists a, b. split; [exact Hs|]. split; [exact Hq|].
  apply H3. reflexivity.
Defined.

Lemma learner_outcome_cases (v : spec.Learner) (self : user.User)
    (g : random.State Q) :
  let d1 := random.uniforms g (random.upos g) in
  let d2 := random.uniforms g (S (random.upos g)) in
  let p := spec.success_chance v (user.non_missed_simulations_completed self)
  in
  let r := fst (user._get_simulation_outcome SIMULATION_OUTCOMES
                  (spec.class_of v) self g) in
  (r = Ok "MISS" <-> Qltb d1 (spec.miss_probability v) = true)
  /\ (r = Ok "SUCCESS"
      <-> Qltb d1 (spec.miss_probability v) = false /\ Qltb d2 p = true)
  /\ (r = Ok "FAIL"
      <-> Qltb d1 (spec.miss_probability v) = false /\ Qltb d2 p = false).
Proof.
  intros d1 d2 p r. subst r. rewrite learner_policy_value. cbn [fst].
  unfold spec.ProduceOutcome. fold d1 d2 p.
  change (@flt Q Q_PyFloat) with Qltb.
  destruct (Qltb d1 (spec.miss_probability v));
    [|destruct (Qltb d2 p)]; simpl;
    repeat split; intros; try discriminate; try tauto;
    match goal with H : _ /\ _ |- _ => destruct H; discriminate end.
Qed.

(** X13. With the same draws, experience never hurts: whether a learner
    misses does not depend on its history; a learner that succeeds would
    also succeed with a greater non-missed count, and one that fails would
    also fail with a smaller one. *)
Theorem X13_experience_never_hurts (v : spec.Learner)
    (novice veteran : user.User) (g : random.State Q) :
  user.non_missed_simulations_completed novice
  <= user.non_missed_simulations_completed veteran ->
  let run := fun self =>
    fst (user._get_simulation_outcome SIMULATION_OUTCOMES (spec.class_of v)
           self g) in
  (run novice = Ok "MISS" <-> run veteran = Ok "MISS")
  /\ (run novice = Ok "SUCCESS" -> run veteran = Ok "SUCCESS")
  /\ (run veteran = Ok "FAIL" -> run novice = Ok "FAIL").
Proof.
  intros Hle run. subst run. cbv beta.
  destruct (learner_outcome_cases v novice g) as (Hm1 & Hs1 & Hf1).
  destruct (learner_outcome_cases v veteran g) as (Hm2 & Hs2 & Hf2).
  cbv zeta in *.
  pose proof (curve_monotone v _ _ (non_missed_nonneg novice) Hle) as Hmono.
  split; [now rewrite Hm1, Hm2|]. split.
  - rewrite Hs1, Hs2. intros [Hd1 Hd2]. split; [exact Hd1|].
    eapply Qltb_le_trans; eauto.
  - rewrite Hf1, Hf2. intros [Hd1 Hd2]. split; [exact Hd1|].
    destruct (Qltb _ (spec.success_chance v
                (user.non_missed_simulations_completed novice))) eqn:E;
      [|reflexivity].
    eapply Qltb_le_trans in E; [|exact Hmono]. congruence.
Qed.

Lemma X13_experience_never_hurts_witness :
  let novice := user.QuickLearner_init "u1" "Ann" in
  let veteran :=
    user.history_append novice
      (mkSimulationResult "2022-03-01 00:00:00" "u1" "QuickLearner" "Ann"
         "FAIL") in
  let g := random.scripted [1 # 2; 1 # 20]%Q 0%Q [] in
  fst (user._get_simulation_outcome SIMULATION_OUTCOMES user.QuickLearner
         veteran g) = Ok "SUCCESS".
Proof.
  intros novice veteran g.
  apply (proj1 (proj2 (X13_experience_never_hurts spec.Quick novice veteran g
                         ltac:(vm_compute; discriminate)))).
  reflexivity.
Defined.

(** X14. With the same draws and the same non-missed count, a quick learner
    succeeds whenever the slow learner of the same miss probability does. *)
Theorem X14_quick_no_worse_than_slow (slow quick : user.User)
    (g : random.State Q) :
  user.non_missed_simulations_completed slow
  = user.non_missed_simulations_completed quick ->
  (fst (user.SlowLearner_get_simulation_outcome SIMULATION_OUTCOMES slow g)
   = Ok "SUCCESS" ->
   fst (user.QuickLearner_get_simulation_outcome SIMULATION_OUTCOMES quick g)
   = Ok "SUCCESS")
  /\ (fst (user.BusySlowLearner_get_simulation_outcome SIMULATION_OUTCOMES
             slow g) = Ok "SUCCESS" ->
      fst (user.BusyQuickLearner_get_simulation_outcome SIMULATION_OUTCOMES
             quick g) = Ok "SUCCESS").
Proof.
  intros Heq.
  pose proof (non_missed_nonneg quick) as Hn.
  destruct (slow_quick_curves _ Hn) as (_ & Hle & _).
  rewrite <- Heq in Hle at 1.
  split.
  - destruct (learner_outcome_cases spec.Slow slow g) as (_ & Hs & _).
    destruct (learner_outcome_cases spec.Quick quick g) as (_ & Hq & _).
    cbv zeta in *. simpl spec.class_of in *. simpl user._get_simulation_outcome in *.
    rewrite Hs, Hq. intros [Hd1 Hd2]. split; [exact Hd1|].
    eapply Qltb_le_trans; eauto.
  - destruct (learner_outcome_cases spec.BusySlow slow g) as (_ & Hs & _).
    destruct (learner_outcome_cases spec.BusyQuick quick g) as (_ & Hq & _).
    cbv zeta in *. simpl spec.class_of in *. simpl user._get_simulation_outcome in *.
    rewrite Hs, Hq. intros [Hd1 Hd2]. split; [exact Hd1|].
    eapply Qltb_le_trans; eauto.
Qed.

Lemma X14_quick_no_worse_than_slow_witness :
  fst (user.QuickLearner_get_simulation_outcome SIMULATION_OUTCOMES
         (user.QuickLearner_init "u1" "Ann")
         (random.scripted [1 # 2; 1 # 20]%Q 0%Q []))
  = Ok "SUCCESS".
Proof.
  apply (proj1 (X14_quick_no_worse_than_slow
                  (user.SlowLearner_init "u2" "Bob")
                  (user.QuickLearner_init "u1" "Ann")
                  (random.scripted [1 # 2; 1 # 20]%Q 0%Q []) eq_refl)).
  reflexivity.
Defined.

(** * Further properties of the queries of [main.py] *)

Lemma count_rows_cons (c : sql.Row -> bool) (r : sql.Row)
    (l : list sql.Row) :
  aggregation.count_rows c (r :: l)
  = (if c r then 1 else 0) + aggregation.count_rows c l.
Proof.
  unfold aggregation.count_rows. cbn [filter].
  destruct (c r); cbn [List.length]; lia.
Qed.

Lemma count_rows_nonneg (c : sql.Row -> bool) (l : list sql.Row) :
  0 <= aggregation.count_rows c l.
Proof. unfold aggregation.count_rows. lia. Qed.

Lemma count_rows_all (l : list sql.Row) :
  aggregation.count_rows (fun _ => true) l = Z.of_nat (List.length l).
Proof.
  unfold aggregation.count_rows. f_equal. f_equal.
  induction l as [|r l IH]; simpl; congruence.
Qed.

Lemma total_perm {O} (column : O -> Z) (l l' : list O) :
  Permutation l l' ->
  aggregation.total column l = aggregation.total column l'.
Proof.
  induction 1; simpl; lia.
Qed.

Lemma total_map {A O} (column : O -> Z) (f : A -> O) (l : list A) :
  aggregation.total column (map f l)
  = aggregation.total (fun a => column (f a)) l.
Proof. induction l as [|a l IH]; simpl; congruence. Qed.

Lemma total_ext {O} (f f' : O -> Z) (l : list O) :
  (forall o, In o l -> f o = f' o) ->
  aggregation.total f l = aggregation.total f' l.
Proof.
  induction l as [|o l IH]; intros Hext; simpl; [reflexivity|].
  rewrite IH by (intros; apply Hext; simpl; auto).
  rewrite (Hext o) by (simpl; auto). reflexivity.
Qed.

Lemma total_zero {O} (l : list O) : aggregation.total (fun _ => 0) l = 0.
Proof. induction l as [|o l IH]; simpl; lia. Qed.

Lemma total_add {O} (f f' : O -> Z) (l : list O) :
  aggregation.total (fun o => f o + f' o) l
  = aggregation.total f l + aggregation.total f' l.
Proof. induction l as [|o l IH]; simpl; lia. Qed.

Section Partition.

Variables K O : Type.
Variable q : sql.QueryParams K O.

Hypothesis group_eqb_eq :
  forall k k', sql.group_eqb q k k' = true <-> k = k'.

Lemma indicator_absent (k0 : K) (ks : list K) :
  ~ In k0 ks ->
  aggregation.total (fun k => if sql.group_eqb q k k0 then 1 else 0) ks = 0.
Proof.
  induction ks as [|k ks IH]; intros Hnot; simpl; [reflexivity|].
  rewrite IH by (intros Hin; apply Hnot; now right).
  destruct (sql.group_eqb q k k0) eqn:E; [|reflexivity].
  apply group_eqb_eq in E. subst. exfalso. apply Hnot. now left.
Qed.

Lemma indicator_present (k0 : K) (ks : list K) :
  NoDup ks -> In k0 ks ->
  aggregation.total (fun k => if sql.group_eqb q k k0 then 1 else 0) ks = 1.
Proof.
  induction 1 as [|k ks Hnotin Hnd IH]; intros Hin; [contradiction|].
  simpl. destruct Hin as [->|Hin].
  - rewrite indicator_absent by exact Hnotin.
    destruct (group_eqb_eq k0 k0) as [_ Hk]. now rewrite Hk.
  - rewrite IH by exact Hin.
    destruct (sql.group_eqb q k k0) eqn:E; [|reflexivity].
    apply group_eqb_eq in E. subst. contradiction.
Qed.

(** Every row is counted in the group of exactly one key. *)
Lemma groups_partition (c : sql.Row -> bool) (ks : list K)
    (l : list sql.Row) :
  NoDup ks ->
  (forall r, In r l -> In (sql.group_by q r) ks) ->
  aggregation.total
    (fun k => aggregation.count_rows
                (fun r => sql.group_eqb q k (sql.group_by q r) && c r) l) ks
  = aggregation.count_rows c l.
Proof.
  intros Hnd. induction l as [|r l IH]; intros Hcover.
  - rewrite (total_ext _ (fun _ => 0)) by reflexivity.
    apply total_zero.
  - rewrite count_rows_cons, <- IH by (intros; apply Hcover; now right).
    rewrite (total_ext _
               (fun k =>
                  (if sql.group_eqb q k (sql.group_by q r) && c r
                   then 1 else 0)
                  + aggregation.count_rows
                      (fun r' => sql.group_eqb q k (sql.group_by q r') && c r')
                      l))
      by (intros k _; apply count_rows_cons).
    rewrite total_add. f_equal.
    destruct (c r).
    + rewrite (total_ext _
                 (fun k => if sql.group_eqb q k (sql.group_by q r)
                           then 1 else 0))
        by (intros k _; now rewrite andb_true_r).
      apply indicator_present; [exact Hnd|]. apply Hcover. now left.
    + rewrite (total_ext _ (fun _ => 0))
        by (intros k _; now rewrite andb_false_r).
      apply total_zero.
Qed.

(** The groups of a table cover each of its rows once. *)
Lemma GROUP_BY_partition (c : sql.Row -> bool) (table : list sql.Row) :
  aggregation.total
    (fun r0 => aggregation.count_rows c (sql.group_of q r0 table))
    (sql.first_rows q [] table)
  = aggregation.count_rows c table.
Proof.
  rewrite <- (groups_partition c
                (map (sql.group_by q) (sql.first_rows q [] table)) table).
  - rewrite total_map. apply total_ext. intros r0 _.
    unfold aggregation.count_rows, sql.group_of. now rewrite filter_filter.
  - apply first_rows_NoDup. exact group_eqb_eq.
  - intros r Hin.
    destruct (first_rows_complete _ _ q group_eqb_eq r table [] Hin)
      as (r0 & Hin0 & Hk); [tauto|].
    rewrite <- Hk. now apply in_map.
Qed.

(** A column that is a count over the group sums, over the result, to the
    count over the table. *)
Lemma query_total (c : sql.Row -> bool) (column : O -> Z)
    (table : list sql.Row) :
  (forall r0 group,
      column (sql.dimensions q r0 group) = aggregation.count_rows c group) ->
  aggregation.total column (sql.query_db_to_df q table)
  = aggregation.count_rows c table.
Proof.
  intros Hcol. unfold sql.query_db_to_df.
  rewrite <- (total_perm column _ _ (ORDER_BY_perm _ _ q _)).
  unfold sql.GROUP_BY. rewrite total_map.
  rewrite <- (GROUP_BY_partition c table).
  apply total_ext. intros r0 _. apply Hcol.
Qed.

End Partition.

Section ResultSize.

Variables K O : Type.
Variable q : sql.QueryParams K O.

Lemma first_rows_length (table : list sql.Row) :
  forall seen,
    (List.length (sql.first_rows q seen table) <= List.length table)%nat.
Proof.
  induction table as [|r rest IH]; intros seen; simpl; [lia|].
  destruct (existsb _ seen).
  - specialize (IH seen). lia.
  - specialize (IH (sql.group_by q r :: seen)). simpl. lia.
Qed.

Lemma query_length (table : list sql.Row) :
  List.length (sql.query_db_to_df q table)
  = List.length (sql.first_rows q [] table).
Proof.
  unfold sql.query_db_to_df.
  rewrite <- (Permutation_length (ORDER_BY_perm _ _ q _)).
  unfold sql.GROUP_BY. apply length_map.
Qed.

Lemma query_size (table : list sql.Row) :
  (List.length (sql.query_db_to_df q table) <= List.length table)%nat
  /\ (sql.query_db_to_df q table = [] <-> table = []).
Proof.
  rewrite query_length. split; [apply first_rows_length|].
  split.
  - intros Hnil. destruct table as [|r rest]; [reflexivity|].
    apply (f_equal (@List.length O)) in Hnil.
    rewrite query_length in Hnil. simpl in Hnil. discriminate.
  - intros ->. reflexivity.
Qed.

End ResultSize.

(** X8. Either query returns no row exactly when the table has none, and
    never more rows than the table has. *)
Theorem X8_result_sizes (table : list sql.Row) :
  (main.get_data_with_query__types table = [] <-> table = [])
  /\ (main.get_data_with_query__individuals table = [] <-> table = [])
  /\ (List.length (main.get_data_with_query__types table)
      <= List.length table)%nat
  /\ (List.length (main.get_data_with_query__individuals table)
      <= List.length table)%nat.
Proof.
  destruct (query_size _ _ main.query_params__types table) as [Hl He].
  destruct (query_size _ _ main.query_params__individuals table)
    as [Hl' He'].
  repeat split; try apply He; try apply He'; assumption.
Qed.

Lemma valid_outcome_cases (r : sql.Row) :
  In (outcome r) SIMULATION_OUTCOMES ->
  (if main.outcome_is "SUCCESS" r then 1 else 0)
  + (if main.outcome_is "FAIL" r then 1 else 0)
  = (if aggregation.non_missed r then 1 else 0)
  /\ (if main.outcome_is "SUCCESS" r then 1 else 0)
     + (if main.outcome_is "FAIL" r then 1 else 0)
     + (if main.outcome_is "MISS" r then 1 else 0) = 1.
Proof.
  unfold main.outcome_is, aggregation.non_missed. simpl.
  intros [<-|[<-|[<-|[]]]]; split; reflexivity.
Qed.

(** Over rows with valid outcomes, under any further condition, SUCCESS and
    FAIL rows together are the non-missed rows, and with the MISS rows they
    are all the rows. *)
Lemma valid_counts (c : sql.Row -> bool) (l : list sql.Row) :
  Forall (fun r => In (outcome r) SIMULATION_OUTCOMES) l ->
  aggregation.count_rows (fun r => c r && main.outcome_is "SUCCESS" r) l
  + aggregation.count_rows (fun r => c r && main.outcome_is "FAIL" r) l
  = aggregation.count_rows (fun r => c r && aggregation.non_missed r) l
  /\ aggregation.count_rows (fun r => c r && main.outcome_is "SUCCESS" r) l
     + aggregation.count_rows (fun r => c r && main.outcome_is "FAIL" r) l
     + aggregation.count_rows (fun r => c r && main.outcome_is "MISS" r) l
     = aggregation.count_rows c l.
Proof.
  induction 1 as [|r l Hr _ [IH1 IH2]].
  - split; reflexivity.
  - rewrite !count_rows_cons.
    destruct (valid_outcome_cases r Hr) as [H1 H2].
    cbv beta.
    destruct (c r), (main.outcome_is "SUCCESS" r),
      (main.outcome_is "FAIL" r), (main.outcome_is "MISS" r),
      (aggregation.non_missed r); cbn [andb] in *; lia.
Qed.

(** X9. On a table whose outcomes are all SUCCESS, MISS or FAIL, the three
    counts of a row of the per-individual result add up to the number of
    table rows of that user, which is at least one, and over the whole result
    they add up to the number of rows of the table. *)
Theorem X9_individuals_account_for_every_row (table : list sql.Row) :
  Forall (fun r => In (outcome r) SIMULATION_OUTCOMES) table ->
  let attempts := fun o =>
    main.i_successes o + main.i_fails o + main.i_misses o in
  (forall o, In o (main.get_data_with_query__individuals table) ->
     attempts o = aggregation.count_rows
                    (aggregation.user_is (main.i_user_id o)) table
     /\ 1 <= attempts o)
  /\ aggregation.total attempts (main.get_data_with_query__individuals table)
     = Z.of_nat (List.length table).
Proof.
  intros Hvalid attempts. split.
  - intros o Hin.
    destruct (query_db_to_df_spec _ _ main.query_params__individuals
                String.eqb_eq main.i_user_id (fun r group => eq_refl) table)
      as (_ & _ & Hrow & _).
    destruct (Hrow o Hin) as (r & Hr & ->).
    destruct (individuals_row_counts r table) as (Hs & Hf & Hm).
    cbv zeta in Hs, Hf, Hm. subst attempts. cbv beta.
    rewrite Hs, Hf, Hm.
    destruct (valid_counts
                (aggregation.user_is
                   (main.i_user_id
                      (sql.dimensions main.query_params__individuals r
                         (sql.group_of main.query_params__individuals r
                            table)))) table Hvalid) as [_ Hall].
    rewrite Hall. split; [reflexivity|].
    simpl main.i_user_id. clear - Hr.
    induction table as [|r' l IH]; [contradiction|].
    rewrite count_rows_cons. pose proof (count_rows_nonneg
      (aggregation.user_is (user_id r)) l).
    destruct Hr as [->|Hr].
    + unfold aggregation.user_is at 1. rewrite String.eqb_refl. lia.
    + specialize (IH Hr). destruct (aggregation.user_is _ r'); lia.
  - subst attempts.
    rewrite !total_add.
    rewrite (query_total _ _ main.query_params__individuals String.eqb_eq
               (main.outcome_is "SUCCESS")) by reflexivity.
    rewrite (query_total _ _ main.query_params__individuals String.eqb_eq
               (main.outcome_is "FAIL")) by reflexivity.
    rewrite (query_total _ _ main.query_params__individuals String.eqb_eq
               (main.outcome_is "MISS")) by reflexivity.
    destruct (valid_counts (fun _ => true) table Hvalid) as [_ Hall].
    simpl andb in Hall. etransitivity; [exact Hall|].
    apply count_rows_all.
Qed.

(** X10. The per-type result leaves the MISS rows out: on a table whose
    outcomes are all SUCCESS, MISS or FAIL, successes and fails of a row add up
    to the number of non-missed table rows of that month and type, and over
    the whole result to the number of non-missed rows of the table. *)
Theorem X10_types_leave_misses_out (table : list sql.Row) :
  Forall (fun r => In (outcome r) SIMULATION_OUTCOMES) table ->
  (forall o, In o (main.get_data_with_query__types table) ->
     main.successes o + main.fails o
     = aggregation.count_rows
         (fun r => aggregation.month_type_is (main.date o) (main.type o) r
                   && aggregation.non_missed r) table)
  /\ aggregation.total (fun o => main.successes o + main.fails o)
       (main.get_data_with_query__types table)
     = aggregation.count_rows aggregation.non_missed table.
Proof.
  intros Hvalid. split.
  - intros o Hin.
    destruct (query_db_to_df_spec _ _ main.query_params__types types_key_eq
                (fun o => (main.date o, main.type o))
                (fun r group => eq_refl) table) as (_ & _ & Hrow & _).
    destruct (Hrow o Hin) as (r & Hr & ->).
    destruct (types_row_counts r table) as (Hs & Hf).
    cbv zeta in Hs, Hf. rewrite Hs, Hf.
    now destruct (valid_counts
                    (aggregation.month_type_is
                       (main.date
                          (sql.dimensions main.query_params__types r
                             (sql.group_of main.query_params__types r table)))
                       (main.type
                          (sql.dimensions main.query_params__types r
                             (sql.group_of main.query_params__types r table))))
                    table Hvalid) as [Hnm _].
  - rewrite total_add.
    rewrite (query_total _ _ main.query_params__types types_key_eq
               (main.outcome_is "SUCCESS")) by reflexivity.
    rewrite (query_total _ _ main.query_params__types types_key_eq
               (main.outcome_is "FAIL")) by reflexivity.
    destruct (valid_counts (fun _ => true) table Hvalid) as [Hnm _].
    simpl andb in Hnm. exact Hnm.
Qed.

Lemma X9_individuals_account_for_every_row_witness :
  aggregation.total
    (fun o => main.i_successes o + main.i_fails o + main.i_misses o)
    (main.get_data_with_query__individuals aggregation.scenario)
  = 3.
Proof.
  apply (proj2 (X9_individuals_account_for_every_row aggregation.scenario
                  ltac:(repeat (apply Forall_cons; [simpl; auto|]); apply Forall_nil))).
Defined.

Lemma X10_types_leave_misses_out_witness :
  aggregation.total (fun o => main.successes o + main.fails o)
    (main.get_data_with_query__types
       (mkSimulationResult "2022-04-01 00:00:00" "u1" "QuickLearner" "Ann"
          "MISS" :: aggregation.scenario))
  = 3.
Proof.
  apply (proj2 (X10_types_leave_misses_out
                  (mkSimulationResult "2022-04-01 00:00:00" "u1"
                     "QuickLearner" "Ann" "MISS" :: aggregation.scenario)
                  ltac:(repeat (apply Forall_cons; [simpl; auto|]); apply Forall_nil))).
Defined.

(** * From the histories to the per-individual report *)

Lemma NoDup_map_inj {A B} (f : A -> B) (l : list A) (x y : A) :
  NoDup (map f l) -> In x l -> In y l -> f x = f y -> x = y.
Proof.
  induction l as [|a l IH]; simpl; intros Hnd Hx Hy Hf; [contradiction|].
  inversion Hnd as [|? ? Hnotin Hnd']; subst.
  destruct Hx as [->|Hx], Hy as [->|Hy]; try reflexivity.
  - exfalso. apply Hnotin. rewrite Hf. now apply in_map.
  - exfalso. apply Hnotin. rewrite <- Hf. now apply in_map.
  - now apply IH.
Qed.

Lemma count_rows_filter (c c' : sql.Row -> bool) (l : list sql.Row) :
  aggregation.count_rows (fun r => c r && c' r) l
  = aggregation.count_rows c' (filter c l).
Proof.
  unfold aggregation.count_rows. now rewrite filter_filter.
Qed.

Section Report.

Context {F : Type} `{PyFloat F}.

Lemma grown_facts (policy : user.Policy F) (u : user.User) :
  user.grown SIMULATION_OUTCOMES policy u ->
  Forall (spec.bound_to u) (user.history u)
  /\ Forall (fun r => In (outcome r) SIMULATION_OUTCOMES) (user.history u).
Proof.
  intros (uuid & nm & ty & Hr). split.
  - apply reachable_bound in Hr; [|constructor]. tauto.
  - apply reachable_history in Hr. destruct Hr as (rs & -> & Hall).
    exact Hall.
Qed.

(** X11. For users of any classes grown from their construction, with
    pairwise distinct ids, the per-individual result over the table that holds all their
    histories has a row for every user with a non-empty history, and the row
    of a user shows the user's name and type, successes and fails that add up
    to the user's non-missed count, and three counts that add up to the
    user's number of completed simulations. *)
Theorem X11_individual_report (population : list user.User) :
  Forall (fun u => exists policy : user.Policy F,
            user.grown SIMULATION_OUTCOMES policy u) population ->
  NoDup (map user.id population) ->
  forall u, In u population ->
    let report :=
      main.get_data_with_query__individuals
        (flat_map user.history population) in
    (user.history u <> [] ->
     exists o, In o report /\ main.i_user_id o = user.id u)
    /\ (forall o, In o report -> main.i_user_id o = user.id u ->
          main.i_name o = user.name u
          /\ main.i_type o = user.type u
          /\ main.i_successes o + main.i_fails o
             = user.non_missed_simulations_completed u
          /\ main.i_successes o + main.i_fails o + main.i_misses o
             = user.simulations_completed u).
Proof.
  intros Hpop Hnd u Hu report.
  set (table := flat_map user.history population) in *.
  destruct (query_db_to_df_spec _ _ main.query_params__individuals
              String.eqb_eq main.i_user_id (fun r group => eq_refl) table)
    as (_ & _ & Hrow & Hall).
  assert (Hfacts : forall u', In u' population ->
            Forall (spec.bound_to u') (user.history u')
            /\ Forall (fun r => In (outcome r) SIMULATION_OUTCOMES)
                 (user.history u')).
  { intros u' Hu'. rewrite Forall_forall in Hpop.
    destruct (Hpop u' Hu') as [policy Hg]. now apply (grown_facts policy). }
  split.
  - intros Hne. destruct (user.history u) as [|r rest] eqn:Eh; [congruence|].
    assert (Hr : In r table).
    { apply in_flat_map. exists u. split; [exact Hu|].
      rewrite Eh. now left. }
    destruct (Hall r Hr) as (o & Ho & Hk). exists o. split; [exact Ho|].
    rewrite Hk. destruct (Hfacts u Hu) as [Hb _].
    rewrite Eh in Hb. inversion Hb as [|? ? (Hid & _) _]; subst.
    exact Hid.
  - intros o Ho Hid. destruct (Hrow o Ho) as (r & Hr & ->).
    simpl main.i_user_id in Hid.
    apply in_flat_map in Hr. destruct Hr as (u' & Hu' & Hr).
    destruct (Hfacts u' Hu') as [Hb' _].
    rewrite Forall_forall in Hb'. destruct (Hb' r Hr) as (Hi & Ht & Hn).
    assert (u' = u) as ->.
    { apply (NoDup_map_inj user.id population); try assumption. congruence. }
    destruct (individuals_row_counts r table) as (Hs & Hf & Hm).
    cbv zeta in Hs, Hf, Hm. rewrite Hs, Hf, Hm.
    simpl main.i_user_id. simpl main.i_name. simpl main.i_type.
    rewrite !count_rows_filter.
    assert (Hrows : filter (aggregation.user_is (user_id r)) table
                    = user.history u).
    { rewrite <- (rows_of_population u population); try assumption.
      - unfold spec.rows_of. fold table. apply filter_ext.
        intros r'. unfold aggregation.user_is. rewrite Hid.
        apply String.eqb_sym.
      - rewrite Forall_forall. intros u' Hu''. now apply Hfacts. }
    rewrite Hrows. destruct (Hfacts u Hu) as [_ Hvalid].
    destruct (valid_counts (fun _ => true) (user.history u) Hvalid)
      as [Hnm Htot].
    simpl andb in Hnm, Htot.
    repeat split; try assumption.
    + etransitivity; [exact Hnm|]. rewrite non_missed_is_count. reflexivity.
    + etransitivity; [exact Htot|].
      apply count_rows_all.
Qed.

End Report.

Lemma X11_individual_report_witness :
  let quick :=
    user._get_simulation_outcome (F:=Q) SIMULATION_OUTCOMES user.QuickLearner
  in
  let slow :=
    user._get_simulation_outcome (F:=Q) SIMULATION_OUTCOMES user.SlowLearner
  in
  let g := random.scripted [1 # 2; 1 # 20]%Q 0%Q [] in
  let t := datetime.mk 2022 3 7 9 5 0 in
  let ann := fst (snd (user.complete_simulation SIMULATION_OUTCOMES quick t
                         (user.QuickLearner_init "u1" "Ann", g))) in
  let bob := fst (snd (user.complete_simulation SIMULATION_OUTCOMES slow t
                         (user.SlowLearner_init "u2" "Bob", g))) in
  exists o,
    In o (main.get_data_with_query__individuals
            (flat_map user.history [ann; bob]))
    /\ main.i_user_id o = "u2".
Proof.
  intros quick slow g t ann bob.
  refine (proj1 (X11_individual_report [ann; bob] _ _ bob _) _).
  - constructor; [|constructor; [|constructor]].
    + exists quick, "u1", "Ann", "QuickLearner".
      eapply (user.reach_call SIMULATION_OUTCOMES quick _ _ ann g);
        [apply user.reach_init | reflexivity].
    + exists slow, "u2", "Bob", "SlowLearner".
      eapply (user.reach_call SIMULATION_OUTCOMES slow _ _ bob g);
        [apply user.reach_init | reflexivity].
  - simpl. constructor; [simpl; intros [E|[]]; discriminate E|].
    constructor; [simpl; tauto | constructor].
  - simpl. auto.
  - discriminate.
Defined.

(** * The representation of a user *)

Example User_repr_fresh :
  user.User_repr (user.QuickLearner_init "0f3a" "Ann")
  = "User(id=0f3a, name=Ann, type=QuickLearner simulations_completed=0)".
Proof. reflexivity. Qed.

Lemma str_inj (a b : Z) : str a = str b -> a = b.
Proof.
  unfold str. intros E.
  apply (f_equal NilEmpty.int_of_string) in E.
  rewrite !NilEmpty.isi in E. injection E as E.
  apply (f_equal Z.of_int) in E. now rewrite !DecimalZ.of_to in E.
Qed.

Lemma append_inv_head (s a b : string) :
  (s ++ a)%string = (s ++ b)%string -> a = b.
Proof.
  induction s as [|c s IH]; simpl; [tauto|].
  intros [= E]. now apply IH.
Qed.

Lemma length_append (a b : string) :
  String.length (a ++ b) = (String.length a + String.length b)%nat.
Proof. induction a as [|c a IH]; simpl; congruence. Qed.

Lemma append_inv_tail (a b c : string) :
  (a ++ c)%string = (b ++ c)%string -> a = b.
Proof.
  revert b. induction a as [|x a IH]; intros [|y b] E; simpl in E.
  - reflexivity.
  - apply (f_equal String.length) in E. simpl in E.
    rewrite length_append in E. lia.
  - apply (f_equal String.length) in E. simpl in E.
    rewrite length_append in E. lia.
  - injection E as -> E. f_equal. now apply IH.
Qed.

(** X12. Two states of one user, equal in id, name and type, have the same
    representation exactly when they have completed the same number of
    simulations. *)
Theorem X12_repr_shows_progress (u u' : user.User) :
  user.id u = user.id u' ->
  user.name u = user.name u' ->
  user.type u = user.type u' ->
  (user.User_repr u = user.User_repr u'
   <-> user.simulations_completed u = user.simulations_completed u').
Proof.
  intros Hi Hn Ht. unfold user.User_repr. rewrite Hi, Hn, Ht. split.
  - intros E.
    repeat match type of E with
    | (?s ++ _)%string = (?s ++ _)%string => apply append_inv_head in E
    end.
    apply append_inv_tail in E. now apply str_inj.
  - intros ->. reflexivity.
Qed.

Lemma X12_repr_shows_progress_witness :
  user.User_repr (user.QuickLearner_init "u1" "Ann")
  = user.User_repr
      (user.history_append (user.QuickLearner_init "u1" "Ann")
         (mkSimulationResult "2022-03-01 00:00:00" "u1" "QuickLearner" "Ann"
            "FAIL"))
  <-> 0 = 1.
Proof.
  apply (X12_repr_shows_progress (user.QuickLearner_init "u1" "Ann")
           (user.history_append (user.QuickLearner_init "u1" "Ann")
              (mkSimulationResult "2022-03-01 00:00:00" "u1" "QuickLearner"
                 "Ann" "FAIL"))
           eq_refl eq_refl eq_refl).
Defined.

(** * Runs of the provided classes *)

Section ProvidedRuns.

Context {F : Type} `{PyFloat F}.

(** X15. For each of the five provided classes a run of calls never raises:
    from any user state and any generator state, N calls leave N more
    entries in the history. *)
Theorem X15_provided_runs_complete (cls : user.UserClass)
    (ts : list datetime.datetime) :
  forall (self : user.User) (g : random.State F),
  exists (self' : user.User) (g' : random.State F),
    user.complete_simulations SIMULATION_OUTCOMES
      (user._get_simulation_outcome SIMULATION_OUTCOMES cls) ts (self, g)
    = (Ok tt, (self', g'))
    /\ List.length (user.history self')
       = (List.length (user.history self) + List.length ts)%nat.
Proof.
  induction ts as [|t ts IH]; intros self g; simpl.
  - exists self, g. split; [reflexivity | lia].
  - unfold bind at 1. rewrite complete_simulation_cases.
    destruct (provided_policy_value cls self g) as (o & g1 & E).
    rewrite E.
    assert (Hc : user.contains SIMULATION_OUTCOMES (spec.outcome_name o)
                 = true) by (destruct o; reflexivity).
    rewrite Hc.
    destruct (IH (user.history_append self
                    (mkSimulationResult (datetime.strftime t) (user.id self)
                       (user.type self) (user.name self)
                       (spec.outcome_name o))) g1)
      as (self' & g' & Erun & Hlen).
    exists self', g'. split; [exact Erun|].
    rewrite Hlen. simpl. rewrite length_app. simpl. lia.
Qed.

End ProvidedRuns.

(** * The results do not depend on the order of the table's rows *)

Lemma count_rows_perm (c : sql.Row -> bool) (l l' : list sql.Row) :
  Permutation l l' ->
  aggregation.count_rows c l = aggregation.count_rows c l'.
Proof.
  intros Hp. unfold aggregation.count_rows.
  induction Hp; simpl; try lia.
  - destruct (c x); simpl; lia.
  - destruct (c x), (c y); simpl; lia.
Qed.

Lemma NoDup_map_NoDup {A B} (f : A -> B) (l : list A) :
  NoDup (map f l) -> NoDup l.
Proof.
  induction l as [|a l IH]; simpl; intros Hnd; [constructor|].
  inversion Hnd as [|? ? Hnotin Hnd']; subst.
  constructor; [|now apply IH].
  intros Hin. apply Hnotin. now apply in_map.
Qed.

(** The rows of the per-type result, read off the table. *)
Lemma types_rows (table : list sql.Row) (o : main.TypesRow) :
  In o (main.get_data_with_query__types table)
  <-> exists r, In r table
        /\ o = main.mkTypesRow
                 (sql.strftime_Ym (timestamp r)) (type r)
                 (aggregation.count_rows
                    (fun r' => aggregation.month_type_is
                                 (sql.strftime_Ym (timestamp r)) (type r) r'
                               && main.outcome_is "SUCCESS" r') table)
                 (aggregation.count_rows
                    (fun r' => aggregation.month_type_is
                                 (sql.strftime_Ym (timestamp r)) (type r) r'
                               && main.outcome_is "FAIL" r') table).
Proof.
  destruct (query_db_to_df_spec _ _ main.query_params__types types_key_eq
              (fun o => (main.date o, main.type o))
              (fun r group => eq_refl) table) as (_ & _ & Hrow & Hall).
  assert (Hdim : forall r,
    sql.dimensions main.query_params__types r
      (sql.group_of main.query_params__types r table)
    = main.mkTypesRow
        (sql.strftime_Ym (timestamp r)) (type r)
        (aggregation.count_rows
           (fun r' => aggregation.month_type_is
                        (sql.strftime_Ym (timestamp r)) (type r) r'
                      && main.outcome_is "SUCCESS" r') table)
        (aggregation.count_rows
           (fun r' => aggregation.month_type_is
                        (sql.strftime_Ym (timestamp r)) (type r) r'
                      && main.outcome_is "FAIL" r') table)).
  { intros r. destruct (types_row_counts r table) as [Hs Hf].
    cbv zeta in Hs, Hf. simpl main.date in Hs, Hf. simpl main.type in Hs, Hf.
    rewrite <- Hs, <- Hf. reflexivity. }
  split.
  - intros Hin. destruct (Hrow o Hin) as (r & Hr & ->).
    exists r. split; [exact Hr | apply Hdim].
  - intros (r & Hr & ->).
    destruct (Hall r Hr) as (o & Ho & Hk).
    destruct (Hrow o Ho) as (r0 & Hr0 & ->).
    rewrite Hdim in Ho. simpl in Hk. injection Hk as Hd Ht.
    now rewrite <- Hd, <- Ht.
Qed.

(** X16. The per-type result does not depend on the order in which the
    table holds its rows: two tables with the same rows give the same result
    rows, up to the order of rows of equal month. *)
Theorem X16_types_row_order_independent (table table' : list sql.Row) :
  Permutation table table' ->
  Permutation (main.get_data_with_query__types table)
    (main.get_data_with_query__types table').
Proof.
  intros Hp.
  assert (Hnd : forall t, NoDup (main.get_data_with_query__types t)).
  { intros t.
    destruct (query_db_to_df_spec _ _ main.query_params__types types_key_eq
                (fun o => (main.date o, main.type o))
                (fun r group => eq_refl) t) as (_ & Hnd & _).
    now apply NoDup_map_NoDup in Hnd. }
  apply NoDup_Permutation; try apply Hnd.
  intros o. rewrite !types_rows.
  split; intros (r & Hr & ->); exists r.
  - split; [now apply (Permutation_in _ Hp)|].
    now rewrite !(count_rows_perm _ _ _ Hp).
  - split; [now apply (Permutation_in _ (Permutation_sym Hp))|].
    now rewrite !(count_rows_perm _ _ _ Hp).
Qed.

Lemma X16_types_row_order_independent_witness :
  Permutation
    (main.get_data_with_query__types aggregation.scenario)
    (main.get_data_with_query__types (List.rev aggregation.scenario)).
Proof.
  apply (X16_types_row_order_independent aggregation.scenario
           (List.rev aggregation.scenario)).
  apply Permutation_rev.
Defined.

(** The rows of the per-individual result, read off a table whose rows agree
    on every user's name and type. *)
Lemma individuals_rows (table : list sql.Row) (o : main.IndividualsRow) :
  aggregation.consistent table ->
  (In o (main.get_data_with_query__individuals table)
   <-> exists r, In r table
         /\ o = main.mkIndividualsRow (user_id r) (name r) (type r)
                  (aggregation.count_rows
                     (fun r' => aggregation.user_is (user_id r) r'
                                && main.outcome_is "SUCCESS" r') table)
                  (aggregation.count_rows
                     (fun r' => aggregation.user_is (user_id r) r'
                                && main.outcome_is "FAIL" r') table)
                  (aggregation.count_rows
                     (fun r' => aggregation.user_is (user_id r) r'
                                && main.outcome_is "MISS" r') table)).
Proof.
  intros Hcons.
  destruct (query_db_to_df_spec _ _ main.query_params__individuals
              String.eqb_eq main.i_user_id (fun r group => eq_refl) table)
    as (_ & _ & Hrow & Hall).
  assert (Hdim : forall r,
    sql.dimensions main.query_params__individuals r
      (sql.group_of main.query_params__individuals r table)
    = main.mkIndividualsRow (user_id r) (name r) (type r)
        (aggregation.count_rows
           (fun r' => aggregation.user_is (user_id r) r'
                      && main.outcome_is "SUCCESS" r') table)
        (aggregation.count_rows
           (fun r' => aggregation.user_is (user_id r) r'
                      && main.outcome_is "FAIL" r') table)
        (aggregation.count_rows
           (fun r' => aggregation.user_is (user_id r) r'
                      && main.outcome_is "MISS" r') table)).
  { intros r. destruct (individuals_row_counts r table) as (Hs & Hf & Hm).
    cbv zeta in Hs, Hf, Hm. simpl main.i_user_id in Hs, Hf, Hm.
    rewrite <- Hs, <- Hf, <- Hm. reflexivity. }
  split.
  - intros Hin. destruct (Hrow o Hin) as (r & Hr & ->).
    exists r. split; [exact Hr | apply Hdim].
  - intros (r & Hr & ->).
    destruct (Hall r Hr) as (o & Ho & Hk).
    destruct (Hrow o Ho) as (r0 & Hr0 & ->).
    rewrite Hdim in Ho. simpl in Hk.
    destruct (Hcons r0 r Hr0 Hr Hk) as [Hn Ht].
    now rewrite <- Hk, <- Hn, <- Ht.
Qed.

(** X17. When the rows of every user agree on the user's name and type, the
    per-individual result does not depend on the order in which the table
    holds its rows, up to the order of rows of equal name. *)
Theorem X17_individuals_row_order_independent
    (table table' : list sql.Row) :
  aggregation.consistent table ->
  Permutation table table' ->
  Permutation (main.get_data_with_query__individuals table)
    (main.get_data_with_query__individuals table').
Proof.
  intros Hcons Hp.
  assert (Hcons' : aggregation.consistent table').
  { intros r r' Hr Hr'. apply Hcons;
      now apply (Permutation_in _ (Permutation_sym Hp)). }
  assert (Hnd : forall t, NoDup (main.get_data_with_query__individuals t)).
  { intros t.
    destruct (query_db_to_df_spec _ _ main.query_params__individuals
                String.eqb_eq main.i_user_id (fun r group => eq_refl) t)
      as (_ & Hnd & _).
    now apply NoDup_map_NoDup in Hnd. }
  apply NoDup_Permutation; try apply Hnd.
  intros o. rewrite !individuals_rows by assumption.
  split; intros (r & Hr & ->); exists r.
  - split; [now apply (Permutation_in _ Hp)|].
    now rewrite !(count_rows_perm _ _ _ Hp).
  - split; [now apply (Permutation_in _ (Permutation_sym Hp))|].
    now rewrite !(count_rows_perm _ _ _ Hp).
Qed.

Lemma X17_individuals_row_order_independent_witness :
  Permutation
    (main.get_data_with_query__individuals aggregation.scenario)
    (main.get_data_with_query__individuals (List.rev aggregation.scenario)).
Proof.
  apply (X17_individuals_row_order_independent aggregation.scenario
           (List.rev aggregation.scenario)).
  - intros r r' Hr Hr' _. simpl in Hr, Hr'.
    destruct Hr as [<-|[<-|[<-|[]]]]; destruct Hr' as [<-|[<-|[<-|[]]]];
      split; reflexivity.
  - apply Permutation_rev.
Defined.
